(** * Maintenance Backend API: a shallow embedding of [main.py]

    The service is a read-only HTTP gateway: every route binds its query-string
    arguments, opens a PostgreSQL connection, runs one fixed SELECT and returns
    the rows.  The development below embeds

    - the four telemetry tables and the SELECT statements of [main.py], with
      what the server refuses in the bound values (section "Relational
      layer"),
    - the connection life cycle of psycopg2, its adaptation of parameters and
      Python's exceptions as a state-and-exception monad over an explicit
      world (section "Effects"),
    - [get_db_connection], [execute_query] and the seven route handlers,
    - FastAPI's binding of query parameters to handler arguments and its
      writing of the returned value as JSON,

    and then proves the properties of the service's specification. *)

From Stdlib Require Import ZArith Ascii String List.
From stdpp Require Import base option list sorting strings numbers pretty gmap.

Local Open Scope string_scope.
Local Open Scope list_scope.
Local Open Scope Z_scope.

(** * Relational layer *)

(** Timestamps are instants measured in microseconds, as PostgreSQL stores
    them; [hour] is the length of the unit of [INTERVAL '%s hours']. *)
Definition hour : Z := 3600000000.

(** A double precision or numeric value: beside the finite ones (mantissa and
    binary exponent) PostgreSQL has the two infinities and NaN. *)
Inductive float :=
| Finite (mantissa exponent : Z)
| Infinite (negative : bool)
| NaN.

(** A column value outside the columns the statements mention. *)
Inductive value :=
| VNull
| VInt (z : Z)
| VText (s : string)
| VTimestamp (t : Z)
| VFloat (x : float)
| VBytes (b : list Byte.byte).   (* bytea: a memoryview in Python *)

(** One record per table.  The fields are the columns the statements of
    [main.py] name; every other column of the table travels in [other]
    ([SELECT *] passes whole rows through).  A nullable column is an
    [option]; [id] is the surrogate key of [dead_nodes]. *)
Module dead_nodes.
Record row := Row {
  id : Z;
  node_id : option string;
  vertical_name : option string;
  timestamp : option Z;
  other : list (string * value)
}.
End dead_nodes.

Module outlier_data.
Record row := Row {
  node_id : option string;
  timestamp_column : option Z;
  other : list (string * value)
}.
End outlier_data.

Module frequency_analysis.
Record row := Row {
  node : option string;
  timestamp : option Z;
  other : list (string * value)
}.
End frequency_analysis.

Module nan_analysis.
Record row := Row {
  node : option string;
  timestamp_column : option Z;
  other : list (string * value)
}.
End nan_analysis.

Record Database := {
  tbl_dead_nodes : list dead_nodes.row;
  tbl_outlier_data : list outlier_data.row;
  tbl_frequency_analysis : list frequency_analysis.row;
  tbl_nan_analysis : list nan_analysis.row
}.

(** The tables a statement can select from, indexed by their row type. *)
Inductive table : Type → Type :=
| public_dead_nodes : table dead_nodes.row
| public_outlier_data : table outlier_data.row
| frequency_analysis_tbl : table frequency_analysis.row
| nan_analysis_tbl : table nan_analysis.row.

Definition rows_of (db : Database) {R} (t : table R) : list R :=
  match t in table R return list R with
  | public_dead_nodes => tbl_dead_nodes db
  | public_outlier_data => tbl_outlier_data db
  | frequency_analysis_tbl => tbl_frequency_analysis db
  | nan_analysis_tbl => tbl_nan_analysis db
  end.

(** The two shapes of predicate in the WHERE clauses of [main.py]. *)
Inductive condition (R : Type) :=
| TextEq (col : R → option string) (param : string)
    (* col = %s, the parameter being a string *)
| Since (col : R → option Z) (hours : Z).
    (* col >= NOW() - INTERVAL '%s hours', the parameter being an integer *)
Arguments TextEq {R} col param.
Arguments Since {R} col hours.

(** SQL comparisons are three-valued: a comparison with NULL is not true, so
    the row is not selected.  A row is compared only in a statement the
    server accepts: see [select_rejection] for the hours it refuses. *)
Definition holds {R} (now : Z) (r : R) (c : condition R) : Prop :=
  match c with
  | TextEq col param => col r = Some param
  | Since col hours =>
      match col r with
      | Some t => now - hours * hour ≤ t
      | None => False
      end
  end.

Global Instance holds_dec {R} now (r : R) c : Decision (holds now r c).
Proof. destruct c as [col p|col h]; simpl; [|destruct (col r)]; apply _. Defined.

(** SELECT * FROM t WHERE c1 AND ... AND cn [ORDER BY k DESC] [LIMIT n]. *)
Record select (R : Type) := Select {
  from : table R;
  where_ : list (condition R);
  order_by_desc : option (R → Z);
  limit : option Z
}.
Arguments Select {R} from where_ order_by_desc limit.
Arguments from {R} s.
Arguments where_ {R} s.
Arguments order_by_desc {R} s.
Arguments limit {R} s.

Inductive query : Type → Type :=
| SelectStar {R} (s : select R) : query R
| SelectDistinct {R} (t : table R) (col : R → option string) : query (option string).
    (* SELECT DISTINCT col FROM t: a row of the result is its only column *)

(** What the server answers to a statement. *)
Inductive outcome (A : Type) :=
| Rows (rows : A)
| DbError (msg : string).
Arguments Rows {A} rows.
Arguments DbError {A} msg.

Definition selected {R} (db : Database) (now : Z) (s : select R) : list R :=
  filter (λ r, Forall (holds now r) (where_ s)) (rows_of db (from s)).

Definition desc {R} (k : R → Z) : relation R := λ a b, k b ≤ k a.

Global Instance desc_dec {R} (k : R → Z) a b : Decision (desc k a b).
Proof. unfold desc. apply _. Defined.

Definition ordered {R} (db : Database) (now : Z) (s : select R) : list R :=
  match order_by_desc s with
  | Some k => merge_sort (desc k) (selected db now s)
  | None => selected db now s
  end.

(** What the driver and the server refuse in the values bound to a
    statement; [main.py] checks none of them before it binds. *)
Inductive rejection :=
| NulCharacter       (* psycopg2: a string parameter holds a NUL character *)
| HoursOutOfRange    (* INTERVAL '%s hours', or NOW() minus it, out of range *)
| LimitOutOfRange    (* LIMIT is a bigint *)
| NegativeLimit.     (* LIMIT must not be negative *)

(** What [main.py] does not show of the server it talks to.
    - [hours_in_range h]: the server can form [INTERVAL 'h hours'] and
      subtract it from [NOW()]; the ranges of intervals and of timestamps are
      the server's, and depend on its version and on its clock;
    - [error_text r]: the text [str(e)] of the exception the driver raises
      for refusal [r]. *)
Record Server := {
  hours_in_range : Z → bool;
  error_text : rejection → string
}.

Definition condition_rejection {R} (srv : Server) (c : condition R)
  : option rejection :=
  match c with
  | TextEq _ _ => None
  | Since _ hours =>
      if hours_in_range srv hours then None else Some HoursOutOfRange
  end.

Definition limit_rejection (lim : option Z) : option rejection :=
  match lim with
  | None => None
  | Some n =>
      if decide (n < - 2 ^ 63 ∨ 2 ^ 63 ≤ n) then Some LimitOutOfRange
      else if decide (n < 0) then Some NegativeLimit
      else None
  end.

(** The first refusal of a statement, if it has one: the server fails the
    whole statement, whatever the table holds. *)
Definition select_rejection {R} (srv : Server) (s : select R) : option rejection :=
  match head (omap (condition_rejection srv) (where_ s)) with
  | Some r => Some r
  | None => limit_rejection (limit s)
  end.

Definition run_select {R} (srv : Server) (db : Database) (now : Z) (s : select R)
  : outcome (list R) :=
  match select_rejection srv s with
  | Some r => DbError (error_text srv r)
  | None =>
      match limit s with
      | None => Rows (ordered db now s)
      | Some n => Rows (take (Z.to_nat n) (ordered db now s))
      end
  end.

Definition run_query {R} (srv : Server) (db : Database) (now : Z) (q : query R)
  : outcome (list R) :=
  match q in query R return outcome (list R) with
  | SelectStar s => run_select srv db now s
  | SelectDistinct t col => Rows (remove_dups (col <$> rows_of db t))
  end.

(** The strings bound to a statement. *)
Definition text_params {R} (q : query R) : list string :=
  match q with
  | SelectStar s =>
      omap (λ c, match c with
                 | TextEq _ param => Some param
                 | Since _ _ => None
                 end) (where_ s)
  | SelectDistinct _ _ => []
  end.

Definition has_nul (s : string) : Prop :=
  "000"%char ∈ list_ascii_of_string s.

Global Instance has_nul_dec s : Decision (has_nul s).
Proof. unfold has_nul. apply _. Defined.

(** * Effects: the world, exceptions, and psycopg2 *)

(** A connection is named by the number the driver handed out. *)
Definition conn := nat.

(** What the service did to the database, in order. *)
Inductive event :=
| Connected (c : conn)       (* psycopg2.connect returned c *)
| ConnectFailed              (* psycopg2.connect raised *)
| Executed (c : conn)        (* cursor.execute was called on c *)
| Closed (c : conn).         (* c.close() *)

(** The world a request runs in.  The database, its clock, its server and the
    two ways the infrastructure can fail are the environment; the connections
    handed out, the ones still open and the trace are what a request changes.
    - [connect_fault = Some msg]: [psycopg2.connect] raises an exception [e]
      with [str(e) = msg];
    - [execute_fault = Some msg]: the server fails the statement with an
      exception whose text is [msg], whatever the statement says. *)
Record World := {
  database : Database;
  NOW : Z;
  server : Server;
  connect_fault : option string;
  execute_fault : option string;
  next_conn : conn;
  open_conns : list conn;
  trace : list event
}.

Definition log (ev : event) (w : World) : World :=
  {| database := database w; NOW := NOW w; server := server w;
     connect_fault := connect_fault w; execute_fault := execute_fault w;
     next_conn := next_conn w; open_conns := open_conns w;
     trace := trace w ++ [ev] |}.

(** Python exceptions: [HTTPException] is the only class the service raises
    itself, [Error] stands for every other exception, with its text. *)
Inductive exn :=
| Error (msg : string)
| HTTPException (status_code : Z) (detail : string).

(** [str(e)]; Starlette prints an [HTTPException] as "status: detail". *)
Definition str (e : exn) : string :=
  match e with
  | Error msg => msg
  | HTTPException status_code detail => pretty status_code +:+ ": " +:+ detail
  end.

Inductive result (A : Type) :=
| Return (a : A)
| Raise (e : exn).
Arguments Return {A} a.
Arguments Raise {A} e.

Definition M (A : Type) : Type := World → result A * World.

Global Instance M_ret : MRet M := λ A a w, (Return a, w).

Global Instance M_bind : MBind M := λ A B f m w,
  match m w with
  | (Return a, w') => f a w'
  | (Raise e, w') => (Raise e, w')
  end.

Global Instance M_fmap : FMap M := λ A B f m w,
  match m w with
  | (Return a, w') => (Return (f a), w')
  | (Raise e, w') => (Raise e, w')
  end.

Definition raise {A} (e : exn) : M A := λ w, (Raise e, w).

(** [try: body / except Exception as e: handler e]. *)
Definition try_except {A} (body : M A) (handler : exn → M A) : M A := λ w,
  match body w with
  | (Return a, w') => (Return a, w')
  | (Raise e, w') => handler e w'
  end.

(** [try: body / finally: final]: [final] runs on every exit of [body]; an
    exception of [final] replaces the outcome of [body]. *)
Definition try_finally {A} (body : M A) (final : M ()) : M A := λ w,
  let '(r, w') := body w in
  match final w' with
  | (Return _, w'') => (r, w'')
  | (Raise e, w'') => (Raise e, w'')
  end.

(** [psycopg2.connect(...)]. *)
Definition psycopg2_connect : M conn := λ w,
  match connect_fault w with
  | Some msg => (Raise (Error msg), log ConnectFailed w)
  | None =>
      let c := next_conn w in
      (Return c,
       {| database := database w; NOW := NOW w; server := server w;
          connect_fault := connect_fault w; execute_fault := execute_fault w;
          next_conn := S c; open_conns := c :: open_conns w;
          trace := trace w ++ [Connected c] |})
  end.

(** psycopg2 adapts the parameters before it sends the statement: a string
    with a NUL character raises [ValueError]. *)
Definition adapt {R} (w : World) (q : query R) : option string :=
  if decide (Exists has_nul (text_params q))
  then Some (error_text (server w) NulCharacter)
  else None.

(** What [cursor.execute(query, params)] and [cursor.fetchall()] give for
    statement [q] in world [w]: the driver adapts the parameters, then the
    server runs the statement. *)
Definition db_outcome {R} (w : World) (q : query R) : outcome (list R) :=
  match adapt w q with
  | Some msg => DbError msg
  | None =>
      match execute_fault w with
      | Some msg => DbError msg
      | None => run_query (server w) (database w) (NOW w) q
      end
  end.

(** [with conn.cursor(cursor_factory=RealDictCursor) as cursor:
       cursor.execute(query, params); cursor.fetchall()]
    on connection [c]: the rows, or the exception the driver raises, for a
    parameter it cannot adapt or for the error of the server. *)
Definition cursor_execute_fetchall {R} (c : conn) (q : query R) : M (list R) := λ w,
  if decide (c ∈ open_conns w) then
    match db_outcome w q with
    | Rows rows => (Return rows, log (Executed c) w)
    | DbError msg => (Raise (Error msg), log (Executed c) w)
    end
  else (Raise (Error "connection already closed"), w).

(** [conn.close()]. *)
Definition conn_close (c : conn) : M () := λ w,
  (Return (),
   {| database := database w; NOW := NOW w; server := server w;
      connect_fault := connect_fault w; execute_fault := execute_fault w;
      next_conn := next_conn w;
      open_conns := filter (λ c', c' ≠ c) (open_conns w);
      trace := trace w ++ [Closed c] |}).

(** * The service: [main.py] *)

Definition get_db_connection : M conn :=
  try_except psycopg2_connect
    (λ e, raise (HTTPException 500 ("Database connection error: " +:+ str e))).

Definition execute_query {R} (q : query R) : M (list R) :=
  conn ← get_db_connection;
  try_finally
    (try_except
       (cursor_execute_fetchall conn q)
       (λ e, raise (HTTPException 500 ("Query execution error: " +:+ str e))))
    (conn_close conn).

Definition read_root : M string := mret "Welcome to Maintenance Backend API".

Definition latest_dead_node_query (node_id : string) : query dead_nodes.row :=
  SelectStar
    {| from := public_dead_nodes;
       where_ := [TextEq dead_nodes.node_id node_id];
       order_by_desc := Some dead_nodes.id;
       limit := Some 1 |}.

Definition get_latest_dead_node (node_id : string) : M dead_nodes.row :=
  result ← execute_query (latest_dead_node_query node_id);
  match result with
  | [] => raise (HTTPException 404 ("No data found for node_id: " +:+ node_id))
  | r :: _ => mret r
  end.

Definition vertical_names_query : query (option string) :=
  SelectDistinct public_dead_nodes dead_nodes.vertical_name.

(** Python's truth value of a text column: [None] and [""] are false. *)
Definition truthy (v : option string) : Prop :=
  match v with
  | Some s => s ≠ ""
  | None => False
  end.

Global Instance truthy_dec v : Decision (truthy v).
Proof. destruct v; simpl; apply _. Defined.

Definition get_vertical_names : M (list (option string)) :=
  result ← execute_query vertical_names_query;
  mret (filter truthy result).

Definition dead_nodes_by_vertical_query (vertical_name : string) (hours : Z)
  : query dead_nodes.row :=
  SelectStar
    {| from := public_dead_nodes;
       where_ := [TextEq dead_nodes.vertical_name vertical_name;
                  Since dead_nodes.timestamp hours];
       order_by_desc := Some dead_nodes.id;
       limit := Some 100 |}.

Definition get_dead_nodes_by_vertical (vertical_name : string) (hours : Z)
  : M (list dead_nodes.row) :=
  execute_query (dead_nodes_by_vertical_query vertical_name hours).

Definition outlier_data_query (node_id : string) (hours : Z) : query outlier_data.row :=
  SelectStar
    {| from := public_outlier_data;
       where_ := [TextEq outlier_data.node_id node_id;
                  Since outlier_data.timestamp_column hours];
       order_by_desc := None;
       limit := None |}.

Definition get_outlier_data (node_id : string) (hours : Z) : M (list outlier_data.row) :=
  execute_query (outlier_data_query node_id hours).

Definition frequency_analysis_query (node : string) (hours : Z)
  : query frequency_analysis.row :=
  SelectStar
    {| from := frequency_analysis_tbl;
       where_ := [TextEq frequency_analysis.node node;
                  Since frequency_analysis.timestamp hours];
       order_by_desc := None;
       limit := None |}.

Definition get_frequency_analysis (node : string) (hours : Z)
  : M (list frequency_analysis.row) :=
  execute_query (frequency_analysis_query node hours).

Definition nan_analysis_query (node : string) (hours limit : Z) : query nan_analysis.row :=
  SelectStar
    {| from := nan_analysis_tbl;
       where_ := [TextEq nan_analysis.node node;
                  Since nan_analysis.timestamp_column hours];
       order_by_desc := None;
       limit := Some limit |}.

Definition get_nan_analysis (node : string) (hours limit : Z) : M (list nan_analysis.row) :=
  execute_query (nan_analysis_query node hours limit).

(** * FastAPI: routes, parameter binding, responses *)

(** A handler call with its arguments bound. *)
Inductive call :=
| Root
| LatestDeadNode (node_id : string)
| VerticalNames
| DeadNodesByVertical (vertical_name : string) (hours : Z)
| OutlierData (node_id : string) (hours : Z)
| FrequencyAnalysis (node : string) (hours : Z)
| NanAnalysis (node : string) (hours limit : Z).

(** The routes other than "/" query the database. *)
Definition data_returning (c : call) : Prop := c ≠ Root.

(** A response body. *)
Inductive body :=
| JsonMessage (message : string)                    (* {"message": ...} *)
| JsonDetail (detail : string)                      (* {"detail": ...} *)
| JsonRecord (r : dead_nodes.row)
| JsonStrings (l : list (option string))
| JsonDeadNodes (l : list dead_nodes.row)
| JsonOutlierData (l : list outlier_data.row)
| JsonFrequencyAnalysis (l : list frequency_analysis.row)
| JsonNanAnalysis (l : list nan_analysis.row)
| JsonValidationErrors                              (* the body of a 422 *)
| PlainText (text : string).

(** The route table: the [@app.get] decorators. *)
Definition serve (c : call) : M body :=
  match c with
  | Root => JsonMessage <$> read_root
  | LatestDeadNode node_id => JsonRecord <$> get_latest_dead_node node_id
  | VerticalNames => JsonStrings <$> get_vertical_names
  | DeadNodesByVertical vertical_name hours =>
      JsonDeadNodes <$> get_dead_nodes_by_vertical vertical_name hours
  | OutlierData node_id hours => JsonOutlierData <$> get_outlier_data node_id hours
  | FrequencyAnalysis node hours =>
      JsonFrequencyAnalysis <$> get_frequency_analysis node hours
  | NanAnalysis node hours limit => JsonNanAnalysis <$> get_nan_analysis node hours limit
  end.

(** The statement a call sends, asked for its failure only. *)
Definition failure {A} (o : outcome A) : option string :=
  match o with
  | Rows _ => None
  | DbError msg => Some msg
  end.

Definition query_failure (w : World) (c : call) : option string :=
  match c with
  | Root => None
  | LatestDeadNode node_id => failure (db_outcome w (latest_dead_node_query node_id))
  | VerticalNames => failure (db_outcome w vertical_names_query)
  | DeadNodesByVertical vertical_name hours =>
      failure (db_outcome w (dead_nodes_by_vertical_query vertical_name hours))
  | OutlierData node_id hours => failure (db_outcome w (outlier_data_query node_id hours))
  | FrequencyAnalysis node hours =>
      failure (db_outcome w (frequency_analysis_query node hours))
  | NanAnalysis node hours limit =>
      failure (db_outcome w (nan_analysis_query node hours limit))
  end.

(** The connection opens and the driver and the server answer the statement
    of call [c]: none of the failures that end in a 500 occurs. *)
Definition answered (w : World) (c : call) : Prop :=
  connect_fault w = None ∧ query_failure w c = None.

(** The string argument of a call. *)
Definition string_argument (c : call) : option string :=
  match c with
  | Root | VerticalNames => None
  | LatestDeadNode node_id => Some node_id
  | DeadNodesByVertical vertical_name _ => Some vertical_name
  | OutlierData node_id _ => Some node_id
  | FrequencyAnalysis node _ => Some node
  | NanAnalysis node _ _ => Some node
  end.

(** What the framework can write as JSON: [json.dumps(allow_nan=False)]
    refuses NaN and the infinities, and a memoryview has no encoder. *)
Definition json_value (v : value) : Prop :=
  match v with
  | VFloat (Finite _ _) => True
  | VFloat _ => False
  | VBytes _ => False
  | _ => True
  end.

Global Instance json_value_dec v : Decision (json_value v).
Proof. destruct v as [| | | |[]|]; simpl; apply _. Defined.

Definition json_columns (other : list (string * value)) : Prop :=
  Forall (λ column, json_value column.2) other.

Definition serialisable (b : body) : Prop :=
  match b with
  | JsonRecord r => json_columns (dead_nodes.other r)
  | JsonDeadNodes l => Forall (λ r, json_columns (dead_nodes.other r)) l
  | JsonOutlierData l => Forall (λ r, json_columns (outlier_data.other r)) l
  | JsonFrequencyAnalysis l =>
      Forall (λ r, json_columns (frequency_analysis.other r)) l
  | JsonNanAnalysis l => Forall (λ r, json_columns (nan_analysis.other r)) l
  | _ => True
  end.

Global Instance serialisable_dec b : Decision (serialisable b).
Proof. destruct b; simpl; apply _. Defined.

Record Request := {
  path : string;
  query_params : gmap string string   (* the value each query parameter has *)
}.

Record Response := {
  status : Z;
  content : body
}.

(** What binding a request gives. *)
Inductive bound :=
| NoRoute                (* no route has this path *)
| Invalid                (* a parameter is missing or ill-typed *)
| Bound (c : call).

Section Binding.

(** The conversion of a query-string value to [int] is pydantic's; the
    service is modelled for any such conversion. *)
Variable int_of_str : string → option Z.

(** [name: str]: a required parameter. *)
Definition required_str (name : string) (qs : gmap string string) : option string :=
  qs !! name.

(** [name: int = Query(default)]. *)
Definition optional_int (name : string) (default : Z) (qs : gmap string string)
  : option Z :=
  match qs !! name with
  | None => Some default
  | Some s => int_of_str s
  end.

Definition of_option (o : option call) : bound :=
  match o with
  | Some c => Bound c
  | None => Invalid
  end.

Definition bind_request (req : Request) : bound :=
  let qs := query_params req in
  if decide (path req = "/") then Bound Root
  else if decide (path req = "/dead_nodes/latest") then
    of_option (node_id ← required_str "node_id" qs; Some (LatestDeadNode node_id))
  else if decide (path req = "/dead_nodes/verticals") then Bound VerticalNames
  else if decide (path req = "/dead_nodes/by_vertical") then
    of_option (vertical_name ← required_str "vertical_name" qs;
               hours ← optional_int "hours" 3 qs;
               Some (DeadNodesByVertical vertical_name hours))
  else if decide (path req = "/outlier_data") then
    of_option (node_id ← required_str "node_id" qs;
               hours ← optional_int "hours" 24 qs;
               Some (OutlierData node_id hours))
  else if decide (path req = "/frequency_analysis") then
    of_option (node ← required_str "node" qs;
               hours ← optional_int "hours" 24 qs;
               Some (FrequencyAnalysis node hours))
  else if decide (path req = "/nan_analysis") then
    of_option (node ← required_str "node" qs;
               hours ← optional_int "hours" 24 qs;
               limit ← optional_int "limit" 1 qs;
               Some (NanAnalysis node hours limit))
  else NoRoute.

(** The application: bind, call the handler, turn the outcome into a
    response.  A returned value is written as JSON, and a value that cannot
    be is the framework's 500; an [HTTPException] becomes its status and
    detail; any other exception is the framework's 500. *)
Definition app (req : Request) (w : World) : Response * World :=
  match bind_request req with
  | NoRoute => ({| status := 404; content := JsonDetail "Not Found" |}, w)
  | Invalid => ({| status := 422; content := JsonValidationErrors |}, w)
  | Bound c =>
      match serve c w with
      | (Return b, w') =>
    if decide (serialisable b)
    then ({| status := 200; content := b |}, w')
    else ({| status := 500; content := PlainText "Internal Server Error" |}, w')
      | (Raise (HTTPException status_code detail), w') =>
          ({| status := status_code; content := JsonDetail detail |}, w')
      | (Raise (Error _), w') =>
          ({| status := 500; content := PlainText "Internal Server Error" |}, w')
      end
  end.

End Binding.

(** The world after a handler ran its one query in [w]. *)
Definition after_query (w : World) : World :=
  match connect_fault w with
  | Some _ => log ConnectFailed w
  | None =>
      let c := next_conn w in
      {| database := database w; NOW := NOW w; server := server w;
         connect_fault := connect_fault w; execute_fault := execute_fault w;
         next_conn := S c;
         open_conns := filter (λ c', c' ≠ c) (open_conns w);
         trace := trace w ++ [Connected c; Executed c; Closed c] |}
  end.

(** The outcome of [execute_query]: what the caller gets. *)
Definition query_result {R} (w : World) (q : query R) : result (list R) :=
  match connect_fault w with
  | Some msg => Raise (HTTPException 500 ("Database connection error: " +:+ msg))
  | None =>
      match db_outcome w q with
      | Rows rows => Return rows
      | DbError msg => Raise (HTTPException 500 ("Query execution error: " +:+ msg))
      end
  end.

(** A world in which neither the connection nor the statement is failed by
    the infrastructure. *)
Definition healthy (w : World) : Prop :=
  connect_fault w = None ∧ execute_fault w = None.

(** The rows of [dead_nodes] reported for [node_id]. *)
Definition reported (w : World) (node_id : string) (r : dead_nodes.row) : Prop :=
  r ∈ tbl_dead_nodes (database w) ∧ dead_nodes.node_id r = Some node_id.

(** [id] is a key of [dead_nodes]: no two rows share it. *)
Definition surrogate_key (w : World) : Prop :=
  NoDup (dead_nodes.id <$> tbl_dead_nodes (database w)).

(** The time window of a request: [t >= NOW() - hours]; NULL is outside. *)
Definition in_window (w : World) (hours : Z) (t : option Z) : Prop :=
  match t with
  | Some t => NOW w - hours * hour ≤ t
  | None => False
  end.

Global Instance in_window_dec w hours t : Decision (in_window w hours t).
Proof. destruct t; simpl; apply _. Defined.

Section WindowedStatements.
Context {R : Type}.
Variables (tbl : table R) (key : R → option string) (time : R → option Z).
Variables (ord : option (R → Z)) (lim : option Z).

(** The shape of the four windowed statements. *)
Definition windowed_query (k : string) (hours : Z) : query R :=
  SelectStar (Select tbl [TextEq key k; Since time hours] ord lim).

Definition in_scope (w : World) (k : string) (hours : Z) (r : R) : Prop :=
  key r = Some k ∧ in_window w hours (time r).

Global Instance in_scope_dec w k hours r : Decision (in_scope w k hours r).
Proof. unfold in_scope. apply _. Defined.

End WindowedStatements.

(** The required string parameter of each data-returning route. *)
Definition required_param (path : string) : option string :=
  if decide (path = "/dead_nodes/latest") then Some "node_id"
  else if decide (path = "/dead_nodes/by_vertical") then Some "vertical_name"
  else if decide (path = "/outlier_data") then Some "node_id"
  else if decide (path = "/frequency_analysis") then Some "node"
  else if decide (path = "/nan_analysis") then Some "node"
  else None.

(** The reading of C3 as written: a missing or empty required string is
    refused with a 4xx and leaves no trace on the database. *)
Definition rejects_missing_or_empty (int_of_str : string → option Z) : Prop :=
  ∀ req name w,
    required_param (path req) = Some name →
    query_params req !! name = None ∨ query_params req !! name = Some "" →
    400 ≤ status (app int_of_str req w).1 < 500
    ∧ trace (app int_of_str req w).2 = trace w.

(** A conversion for the examples: decimal numerals with an optional sign. *)
Definition digit (a : ascii) : option Z :=
  let n := Z.of_nat (nat_of_ascii a) in
  if decide (48 ≤ n ≤ 57) then Some (n - 48) else None.

Fixpoint digits (acc : Z) (s : string) : option Z :=
  match s with
  | EmptyString => Some acc
  | String a s' => d ← digit a; digits (10 * acc + d) s'
  end.

Definition decimal (s : string) : option Z :=
  match s with
  | EmptyString => None
  | String "-" (String a s') => Z.opp <$> digits 0 (String a s')
  | _ => digits 0 s
  end.

(** ** The scenarios of the specification *)

Definition now0 : Z := 1700000000000000.

Definition dead1 : dead_nodes.row :=
  dead_nodes.Row 1 (Some "n1") (Some "search") (Some (now0 - hour)) [].
Definition dead2 : dead_nodes.row :=
  dead_nodes.Row 2 (Some "n1") (Some "search") (Some (now0 - 1800000000)) [].

Definition nan_x (minutes : Z) : nan_analysis.row :=
  nan_analysis.Row (Some "x") (Some (now0 - minutes * 60000000)) [].

Definition example_db : Database := {|
  tbl_dead_nodes := [dead1; dead2];
  tbl_outlier_data := [outlier_data.Row (Some "n1") (Some (now0 - 24 * hour)) []];
  tbl_frequency_analysis := [frequency_analysis.Row (Some "n1") (Some now0) []];
  tbl_nan_analysis := nan_x <$> [1; 2; 3; 4; 5; 6; 7; 8; 9; 10]
|}.

(** A server for the examples: it accepts windows of up to a million hours
    either way; its texts are written after PostgreSQL's and psycopg2's, and
    no theorem depends on them. *)
Definition example_server : Server := {|
  hours_in_range := λ h, bool_decide (-1000000 ≤ h ≤ 1000000);
  error_text := λ r,
    match r with
    | NulCharacter => "A string literal cannot contain NUL (0x00) characters."
    | HoursOutOfRange => "interval field value out of range"
    | LimitOutOfRange => "bigint out of range"
    | NegativeLimit => "LIMIT must not be negative"
    end
|}.

Definition example_world : World := {|
  database := example_db;
  NOW := now0;
  server := example_server;
  connect_fault := None;
  execute_fault := None;
  next_conn := 0%nat;
  open_conns := [];
  trace := []
|}.

(** A database whose outlier measurement is not a number. *)
Definition not_a_number_world : World := {|
  database := {|
    tbl_dead_nodes := [];
    tbl_outlier_data :=
      [outlier_data.Row (Some "n1") (Some now0) [("value", VFloat NaN)]];
    tbl_frequency_analysis := [];
    tbl_nan_analysis := []
  |};
  NOW := now0;
  server := example_server;
  connect_fault := None;
  execute_fault := None;
  next_conn := 0%nat;
  open_conns := [];
  trace := []
|}.

(** The example database, unreachable. *)
Definition unreachable_world : World := {|
  database := example_db;
  NOW := now0;
  server := example_server;
  connect_fault := Some "connection refused";
  execute_fault := None;
  next_conn := 0%nat;
  open_conns := [];
  trace := []
|}.

Definition request (path : string) (params : list (string * string)) : Request :=
  {| path := path; query_params := list_to_map params |}.

(** The integer parameters of each route: [hours] and, on [/nan_analysis],
    [limit]. *)
Definition integer_params (path : string) : list string :=
  if decide (path = "/dead_nodes/by_vertical") then ["hours"]
  else if decide (path = "/outlier_data") then ["hours"]
  else if decide (path = "/frequency_analysis") then ["hours"]
  else if decide (path = "/nan_analysis") then ["hours"; "limit"]
  else [].

(** * Lemmas on the effects *)

Lemma execute_query_run {R} (q : query R) (w : World) :
  execute_query q w = (query_result w q, after_query w).
Proof.
  unfold execute_query, get_db_connection, mbind, M_bind, try_except,
    psycopg2_connect, query_result, after_query.
  destruct (connect_fault w) as [msg|] eqn:Hc; [reflexivity|].
  unfold try_finally, cursor_execute_fetchall, conn_close, raise, log.
  cbn [open_conns next_conn trace].
  rewrite decide_True by apply list_elem_of_here.
  match goal with
  | |- context [db_outcome ?w' q] => change (db_outcome w' q) with (db_outcome w q)
  end.
  destruct (db_outcome w q);
    cbn; rewrite <- !app_assoc, decide_False by naive_solver;
    reflexivity.
Qed.

(** A handler that only forwards [execute_query]. *)
Lemma query_result_rows {R} (w : World) (q : query R) rows :
  query_result w q = Return rows → db_outcome w q = Rows rows.
Proof.
  unfold query_result. destruct (connect_fault w); [done|].
  destruct (db_outcome w q); naive_solver.
Qed.

Lemma db_outcome_rows {R} (w : World) (q : query R) rows :
  db_outcome w q = Rows rows →
  run_query (server w) (database w) (NOW w) q = Rows rows.
Proof.
  unfold db_outcome. destruct (adapt w q); [done|].
  by destruct (execute_fault w).
Qed.

(** When the connection opens and the statement is answered, the handler
    gets the rows the server computed. *)
Lemma query_result_answered {R} (w : World) (q : query R) :
  connect_fault w = None → failure (db_outcome w q) = None →
  ∃ rows, run_query (server w) (database w) (NOW w) q = Rows rows
          ∧ query_result w q = Return rows.
Proof.
  intros Hc Hq. unfold query_result. rewrite Hc.
  destruct (db_outcome w q) as [rows|msg] eqn:Ho; [|done].
  exists rows. split; [by apply db_outcome_rows|done].
Qed.

(** * Lemmas on the relational layer *)

Section Select.
Context {R : Type}.
Implicit Types (s : select R) (r : R) (k : R → Z).

Global Instance desc_trans k : Transitive (desc k).
Proof. unfold desc. intros a b c ??. lia. Qed.

Global Instance desc_total k : Total (desc k).
Proof. unfold desc. intros a b. lia. Qed.

Lemma elem_of_selected db now s r :
  r ∈ selected db now s ↔ r ∈ rows_of db (from s) ∧ Forall (holds now r) (where_ s).
Proof. unfold selected. rewrite list_elem_of_filter. tauto. Qed.

Lemma ordered_Permutation db now s : ordered db now s ≡ₚ selected db now s.
Proof. unfold ordered. destruct (order_by_desc s); [apply merge_sort_Permutation|done]. Qed.

Lemma elem_of_ordered db now s r : r ∈ ordered db now s ↔ r ∈ selected db now s.
Proof. by rewrite ordered_Permutation. Qed.

Lemma length_ordered db now s : length (ordered db now s) = length (selected db now s).
Proof. by rewrite ordered_Permutation. Qed.

Lemma ordered_sorted db now s k :
  order_by_desc s = Some k → StronglySorted (desc k) (ordered db now s).
Proof. unfold ordered. intros ->. apply StronglySorted_merge_sort; apply _. Qed.

Lemma limit_rejection_none (lim : option Z) n :
  limit_rejection lim = None → lim = Some n → 0 ≤ n < 2 ^ 63.
Proof. unfold limit_rejection. intros Hl ->. repeat case_decide; [done..|lia]. Qed.

(** An answered SELECT: nothing in it was refused, and its rows are the
    ordered selection, cut at LIMIT. *)
Lemma run_select_rows srv db now s rows :
  run_select srv db now s = Rows rows →
  limit_rejection (limit s) = None
  ∧ rows = match limit s with
           | None => ordered db now s
           | Some n => take (Z.to_nat n) (ordered db now s)
           end.
Proof.
  unfold run_select, select_rejection.
  destruct (head _); [done|]. destruct (limit_rejection (limit s)); [done|].
  destruct (limit s); naive_solver.
Qed.

(** Every row a SELECT returns satisfies its WHERE clause. *)
Lemma run_select_sound srv db now s rows r :
  run_select srv db now s = Rows rows → r ∈ rows →
  r ∈ rows_of db (from s) ∧ Forall (holds now r) (where_ s).
Proof.
  intros [_ ->]%run_select_rows Hr. apply elem_of_selected, elem_of_ordered.
  destruct (limit s) as [n|]; [|done]. by eapply subseteq_take.
Qed.

(** Without a LIMIT that cuts, every row satisfying WHERE is returned. *)
Lemma run_select_complete srv db now s rows r :
  run_select srv db now s = Rows rows →
  match limit s with
  | Some n => Z.of_nat (length (selected db now s)) ≤ n
  | None => True
  end →
  r ∈ rows_of db (from s) → Forall (holds now r) (where_ s) →
  r ∈ rows.
Proof.
  intros [_ ->]%run_select_rows Hlim Hin Hwhere.
  assert (r ∈ ordered db now s) by by apply elem_of_ordered, elem_of_selected.
  destruct (limit s) as [n|]; [|done].
  rewrite take_ge; [done|]. rewrite length_ordered. lia.
Qed.

Lemma run_select_limit srv db now s rows n :
  limit s = Some n → run_select srv db now s = Rows rows →
  0 ≤ n < 2 ^ 63 ∧ rows = take (Z.to_nat n) (ordered db now s).
Proof.
  intros Hn [Hl ->]%run_select_rows. rewrite Hn in *.
  split; [by eapply limit_rejection_none|done].
Qed.

Lemma run_select_length srv db now s rows n :
  limit s = Some n → run_select srv db now s = Rows rows →
  0 ≤ n ∧ Z.of_nat (length rows) ≤ n.
Proof.
  intros Hn Hrun. destruct (run_select_limit _ _ _ _ _ _ Hn Hrun) as [? ->].
  rewrite length_take. lia.
Qed.

Lemma StronglySorted_take (P : relation R) n (l : list R) :
  StronglySorted P l → StronglySorted P (take n l).
Proof.
  intros Hl. revert n. induction Hl as [|a l Hl IH Ha]; intros [|n]; simpl;
    try constructor; [apply IH|by apply Forall_take].
Qed.

(** Sorted by a key without repetitions: strictly sorted. *)
Lemma StronglySorted_desc_strict k (l : list R) :
  StronglySorted (desc k) l → NoDup (k <$> l) →
  StronglySorted (λ a b, k b < k a) l.
Proof.
  induction 1 as [|a l Hl IH Ha]; csimpl; [constructor|].
  intros [Hnotin Hnd]%NoDup_cons. constructor; [by apply IH|].
  apply Forall_forall. intros b Hb.
  rewrite Forall_forall in Ha. specialize (Ha b Hb). unfold desc in Ha.
  destruct (decide (k b = k a)) as [Heq|]; [|lia].
  destruct Hnotin. rewrite <- Heq. by apply list_elem_of_fmap_2.
Qed.

Lemma NoDup_key_selected db now s k :
  NoDup (k <$> rows_of db (from s)) → NoDup (k <$> ordered db now s).
Proof.
  intros Hnd. rewrite ordered_Permutation. unfold selected.
  eapply sublist_NoDup; [done|apply fmap_sublist, sublist_filter].
Qed.

Lemma NoDup_key_inj k (l : list R) a b :
  NoDup (k <$> l) → a ∈ l → b ∈ l → k a = k b → a = b.
Proof.
  induction l as [|x l IH]; csimpl; [by intros _ ?%elem_of_nil|].
  intros [Hx Hnd]%NoDup_cons [->|Ha]%elem_of_cons [->|Hb]%elem_of_cons Hk;
    [done| | |by apply IH].
  - destruct Hx. rewrite Hk. by apply list_elem_of_fmap_2.
  - destruct Hx. rewrite <- Hk. by apply list_elem_of_fmap_2.
Qed.

End Select.

(** * Lemmas on the handlers *)

Lemma get_latest_dead_node_run (node_id : string) (w : World) :
  get_latest_dead_node node_id w =
    (match query_result w (latest_dead_node_query node_id) with
     | Return [] =>
         Raise (HTTPException 404 ("No data found for node_id: " +:+ node_id))
     | Return (r :: _) => Return r
     | Raise e => Raise e
     end, after_query w).
Proof.
  unfold get_latest_dead_node, mbind, M_bind. rewrite execute_query_run.
  by destruct (query_result w _) as [[|r rows]|e].
Qed.

Lemma get_vertical_names_run (w : World) :
  get_vertical_names w =
    (match query_result w vertical_names_query with
     | Return result => Return (filter truthy result)
     | Raise e => Raise e
     end, after_query w).
Proof.
  unfold get_vertical_names, mbind, M_bind. rewrite execute_query_run.
  by destruct (query_result w _).
Qed.

Lemma get_dead_nodes_by_vertical_run vertical_name hours (w : World) :
  get_dead_nodes_by_vertical vertical_name hours w =
    (query_result w (dead_nodes_by_vertical_query vertical_name hours), after_query w).
Proof. apply execute_query_run. Qed.

Lemma get_outlier_data_run node_id hours (w : World) :
  get_outlier_data node_id hours w =
    (query_result w (outlier_data_query node_id hours), after_query w).
Proof. apply execute_query_run. Qed.

Lemma get_frequency_analysis_run node hours (w : World) :
  get_frequency_analysis node hours w =
    (query_result w (frequency_analysis_query node hours), after_query w).
Proof. apply execute_query_run. Qed.

Lemma get_nan_analysis_run node hours limit (w : World) :
  get_nan_analysis node hours limit w =
    (query_result w (nan_analysis_query node hours limit), after_query w).
Proof. apply execute_query_run. Qed.

Lemma reported_selected (node_id : string) (w : World) (r : dead_nodes.row) :
  r ∈ ordered (database w) (NOW w)
        (Select public_dead_nodes [TextEq dead_nodes.node_id node_id]
           (Some dead_nodes.id) (Some 1))
  ↔ reported w node_id r.
Proof.
  rewrite elem_of_ordered, elem_of_selected. unfold reported. simpl.
  rewrite Forall_singleton. done.
Qed.

(** C1. [GET /dead_nodes/latest]: when the connection opens and the statement
    is answered, the route fails with 404 if no row of [dead_nodes] has the
    given [node_id]; otherwise it returns one such row, whose [id] is the
    greatest among them, and, [id] being a key, every other row with that
    [node_id] has a smaller [id]. *)
Theorem get_latest_dead_node_max (node_id : string) (w : World) :
  answered w (LatestDeadNode node_id) →
  ((∀ r, ¬ reported w node_id r) →
     (get_latest_dead_node node_id w).1 =
       Raise (HTTPException 404 ("No data found for node_id: " +:+ node_id)))
  ∧ (∀ r0, reported w node_id r0 →
       ∃ r, (get_latest_dead_node node_id w).1 = Return r
            ∧ reported w node_id r
            ∧ (∀ r', reported w node_id r' → dead_nodes.id r' ≤ dead_nodes.id r)
            ∧ (surrogate_key w →
               ∀ r', reported w node_id r' → r' ≠ r →
                     dead_nodes.id r' < dead_nodes.id r)).
Proof.
  intros [Hc Hq]. rewrite get_latest_dead_node_run. simpl fst.
  destruct (query_result_answered w (latest_dead_node_query node_id) Hc Hq)
    as (rows & Hrun & ->).
  unfold latest_dead_node_query, run_query in Hrun.
  eapply run_select_limit in Hrun as [_ ->]; [|reflexivity].
  set (s := Select public_dead_nodes _ _ _).
  pose proof (reported_selected node_id w) as Hrep. fold s in Hrep.
  pose proof (ordered_sorted (database w) (NOW w) s dead_nodes.id eq_refl) as Hs.
  destruct (ordered (database w) (NOW w) s) as [|r l] eqn:Hl; simpl.
  - split; [done|]. intros r0 Hr0%Hrep. by apply elem_of_nil in Hr0.
  - split.
    { intros Hnone. destruct (Hnone r). apply Hrep. left. }
    intros _ _. exists r. apply StronglySorted_inv in Hs as [_ Hmax].
    rewrite Forall_forall in Hmax.
    assert (∀ r', reported w node_id r' → dead_nodes.id r' ≤ dead_nodes.id r) as Hle.
    { intros r' [->|Hr']%Hrep%elem_of_cons; [done|]. by apply Hmax. }
    split_and!; [done|apply Hrep; left|done|].
    intros Hkey r' Hr' Hne. pose proof (Hle r' Hr').
    destruct (decide (dead_nodes.id r' = dead_nodes.id r)) as [Heq|]; [|lia].
    destruct Hne. eapply NoDup_key_inj; [exact Hkey|apply Hr'| |done].
    apply (proj1 (Hrep r)). left.
Qed.

Section Windowed.
Context {R : Type}.
Variables (tbl : table R) (key : R → option string) (time : R → option Z).
Variables (ord : option (R → Z)) (lim : option Z).

Lemma where_in_scope w k hours r :
  Forall (holds (NOW w) r) [TextEq key k; Since time hours]
  ↔ in_scope key time w k hours r.
Proof.
  rewrite Forall_cons, Forall_singleton. unfold in_scope, in_window. simpl.
  by destruct (time r).
Qed.

Lemma selected_in_scope w k hours :
  selected (database w) (NOW w) (Select tbl [TextEq key k; Since time hours] ord lim)
  = filter (in_scope key time w k hours) (rows_of (database w) tbl).
Proof. unfold selected. simpl. apply list_filter_iff. intros r. apply where_in_scope. Qed.

Lemma ordered_in_scope w k hours :
  ordered (database w) (NOW w) (Select tbl [TextEq key k; Since time hours] ord lim)
  ≡ₚ filter (in_scope key time w k hours) (rows_of (database w) tbl).
Proof. by rewrite ordered_Permutation, selected_in_scope. Qed.

Lemma windowed_sound w k hours rows :
  query_result w (windowed_query tbl key time ord lim k hours) = Return rows →
  Forall (λ r, r ∈ rows_of (database w) tbl ∧ in_scope key time w k hours r) rows.
Proof.
  intros Hrun%query_result_rows%db_outcome_rows. apply Forall_forall. intros r Hr.
  destruct (run_select_sound _ _ _ _ _ r Hrun Hr) as [Hin Hwhere].
  by apply where_in_scope in Hwhere.
Qed.

Lemma windowed_complete w k hours rows r :
  query_result w (windowed_query tbl key time ord lim k hours) = Return rows →
  match lim with
  | Some n =>
      Z.of_nat (length (filter (in_scope key time w k hours)
                          (rows_of (database w) tbl))) ≤ n
  | None => True
  end →
  r ∈ rows_of (database w) tbl → in_scope key time w k hours r →
  r ∈ rows.
Proof.
  intros Hrun%query_result_rows%db_outcome_rows Hlim Hin Hr.
  eapply (run_select_complete _ _ _ _ rows r) in Hrun;
    [done| |done|by apply where_in_scope].
  cbn [limit]. rewrite selected_in_scope. by destruct lim.
Qed.

(** The answer to a windowed statement: the rows in scope, ordered as the
    statement says, cut at its LIMIT, which is then a row count. *)
Lemma windowed_answer w k hours :
  connect_fault w = None →
  failure (db_outcome w (windowed_query tbl key time ord lim k hours)) = None →
  query_result w (windowed_query tbl key time ord lim k hours) =
    Return (let l := ordered (database w) (NOW w)
                       (Select tbl [TextEq key k; Since time hours] ord lim) in
            match lim with
            | Some n => take (Z.to_nat n) l
            | None => l
            end)
  ∧ match lim with
    | Some n => 0 ≤ n < 2 ^ 63
    | None => True
    end.
Proof.
  intros Hc Hq.
  destruct (query_result_answered w _ Hc Hq) as (rows & Hrun & ->).
  unfold windowed_query, run_query in Hrun.
  apply run_select_rows in Hrun as [Hl ->]. cbn [limit] in *.
  split; [by destruct lim|].
  destruct lim as [n|]; [|done]. by eapply limit_rejection_none.
Qed.

End Windowed.

(** C2. The four windowed routes, for every [hours]: each returned row has
    its time column at or after [NOW() - hours]; the instant [NOW() - hours]
    itself is inside the window; and, when the connection opens and the
    statement is answered, a row of the requested key inside the window (on
    its boundary too) is returned by [/outlier_data] and
    [/frequency_analysis], and by the two capped routes when the rows in scope
    do not exceed the cap. *)
Theorem windowed_routes_respect_window (w : World) (hours : Z) :
  (∀ vertical_name rows,
     (get_dead_nodes_by_vertical vertical_name hours w).1 = Return rows →
     Forall (λ r, in_window w hours (dead_nodes.timestamp r)) rows)
  ∧ (∀ node_id rows,
       (get_outlier_data node_id hours w).1 = Return rows →
       Forall (λ r, in_window w hours (outlier_data.timestamp_column r)) rows)
  ∧ (∀ node rows,
       (get_frequency_analysis node hours w).1 = Return rows →
       Forall (λ r, in_window w hours (frequency_analysis.timestamp r)) rows)
  ∧ (∀ node limit rows,
       (get_nan_analysis node hours limit w).1 = Return rows →
       Forall (λ r, in_window w hours (nan_analysis.timestamp_column r)) rows)
  ∧ in_window w hours (Some (NOW w - hours * hour))
  ∧ (∀ node_id r,
       answered w (OutlierData node_id hours) →
       r ∈ tbl_outlier_data (database w) →
       outlier_data.node_id r = Some node_id →
       in_window w hours (outlier_data.timestamp_column r) →
       ∃ rows, (get_outlier_data node_id hours w).1 = Return rows ∧ r ∈ rows)
  ∧ (∀ node r,
       answered w (FrequencyAnalysis node hours) →
       r ∈ tbl_frequency_analysis (database w) →
       frequency_analysis.node r = Some node →
       in_window w hours (frequency_analysis.timestamp r) →
       ∃ rows, (get_frequency_analysis node hours w).1 = Return rows ∧ r ∈ rows)
  ∧ (∀ vertical_name r,
       answered w (DeadNodesByVertical vertical_name hours) →
       r ∈ tbl_dead_nodes (database w) →
       dead_nodes.vertical_name r = Some vertical_name →
       in_window w hours (dead_nodes.timestamp r) →
       (length (filter (λ r', dead_nodes.vertical_name r' = Some vertical_name
                              ∧ in_window w hours (dead_nodes.timestamp r'))
                  (tbl_dead_nodes (database w))) ≤ 100)%nat →
       ∃ rows, (get_dead_nodes_by_vertical vertical_name hours w).1 = Return rows
               ∧ r ∈ rows)
  ∧ (∀ node limit r,
       answered w (NanAnalysis node hours limit) →
       r ∈ tbl_nan_analysis (database w) →
       nan_analysis.node r = Some node →
       in_window w hours (nan_analysis.timestamp_column r) →
       Z.of_nat (length (filter (λ r', nan_analysis.node r' = Some node
                              ∧ in_window w hours (nan_analysis.timestamp_column r'))
                  (tbl_nan_analysis (database w)))) ≤ limit →
       ∃ rows, (get_nan_analysis node hours limit w).1 = Return rows ∧ r ∈ rows).
Proof.
  split_and!.
  - intros v rows. rewrite get_dead_nodes_by_vertical_run. simpl.
    intros Hrun%windowed_sound. eapply Forall_impl; [done|]. by intros r (_ & _ & ?).
  - intros n rows. rewrite get_outlier_data_run. simpl.
    intros Hrun%windowed_sound. eapply Forall_impl; [done|]. by intros r (_ & _ & ?).
  - intros n rows. rewrite get_frequency_analysis_run. simpl.
    intros Hrun%windowed_sound. eapply Forall_impl; [done|]. by intros r (_ & _ & ?).
  - intros n limit rows. rewrite get_nan_analysis_run. simpl.
    intros Hrun%windowed_sound. eapply Forall_impl; [done|]. by intros r (_ & _ & ?).
  - simpl. lia.
  - intros n r [Hc Hq] Hin Hkey Htime. rewrite get_outlier_data_run. simpl fst.
    destruct (query_result_answered w (outlier_data_query n hours) Hc Hq)
      as (rows & _ & Hrun).
    exists rows. split; [done|]. by eapply windowed_complete.
  - intros n r [Hc Hq] Hin Hkey Htime. rewrite get_frequency_analysis_run. simpl fst.
    destruct (query_result_answered w (frequency_analysis_query n hours) Hc Hq)
      as (rows & _ & Hrun).
    exists rows. split; [done|]. by eapply windowed_complete.
  - intros v r [Hc Hq] Hin Hkey Htime Hcap.
    rewrite get_dead_nodes_by_vertical_run. simpl fst.
    destruct (query_result_answered w (dead_nodes_by_vertical_query v hours) Hc Hq)
      as (rows & _ & Hrun).
    exists rows. split; [done|].
    eapply windowed_complete; [done| |done..]. simpl in *. unfold in_scope. lia.
  - intros n limit r [Hc Hq] Hin Hkey Htime Hcap.
    rewrite get_nan_analysis_run. simpl fst.
    destruct (query_result_answered w (nan_analysis_query n hours limit) Hc Hq)
      as (rows & _ & Hrun).
    exists rows. split; [done|]. by eapply windowed_complete.
Qed.

(** C5. [GET /dead_nodes/by_vertical] returns rows whenever the connection
    opens and the statement is answered, and an answer has at most 100 rows,
    in descending order of [id]; [id] being a key of the table, the order is
    strict. *)
Theorem dead_nodes_by_vertical_capped_sorted
    (vertical_name : string) (hours : Z) (w : World) :
  (answered w (DeadNodesByVertical vertical_name hours) →
   ∃ rows, (get_dead_nodes_by_vertical vertical_name hours w).1 = Return rows)
  ∧ (∀ rows,
       (get_dead_nodes_by_vertical vertical_name hours w).1 = Return rows →
       (length rows ≤ 100)%nat
       ∧ StronglySorted (λ a b, dead_nodes.id b ≤ dead_nodes.id a) rows
       ∧ (surrogate_key w →
          StronglySorted (λ a b, dead_nodes.id b < dead_nodes.id a) rows)).
Proof.
  rewrite get_dead_nodes_by_vertical_run. simpl fst. split.
  - intros [Hc Hq].
    destruct (query_result_answered w
                (dead_nodes_by_vertical_query vertical_name hours) Hc Hq)
      as (rows & _ & Hrun). eauto.
  - intros rows Hrun%query_result_rows%db_outcome_rows.
    unfold dead_nodes_by_vertical_query, run_query in Hrun.
    eapply run_select_limit in Hrun as [_ ->]; [|reflexivity].
    set (s := Select public_dead_nodes _ _ _).
    pose proof (ordered_sorted (database w) (NOW w) s dead_nodes.id eq_refl) as Hs.
    split_and!.
    + rewrite length_take. lia.
    + by apply StronglySorted_take.
    + intros Hkey. apply StronglySorted_take, StronglySorted_desc_strict; [done|].
      by apply NoDup_key_selected.
Qed.

(** C9. [GET /nan_analysis] with [limit = 0]: when the connection opens and
    the statement is answered, the response is the empty sequence, whatever
    the table holds. *)
Theorem nan_analysis_limit_zero (node : string) (hours : Z) (w : World) :
  answered w (NanAnalysis node hours 0) →
  (get_nan_analysis node hours 0 w).1 = Return [].
Proof.
  intros [Hc Hq]. rewrite get_nan_analysis_run. simpl fst.
  destruct (query_result_answered w (nan_analysis_query node hours 0) Hc Hq)
    as (rows & Hrun & ->).
  unfold nan_analysis_query, run_query in Hrun.
  eapply run_select_limit in Hrun as [_ ->]; [|reflexivity]. done.
Qed.

(** The statement of [/dead_nodes/verticals] binds nothing: nothing in it can
    be refused. *)
Lemma vertical_names_healthy (w : World) :
  healthy w →
  query_result w vertical_names_query =
    Return (remove_dups (dead_nodes.vertical_name <$> tbl_dead_nodes (database w))).
Proof.
  intros [Hc He]. unfold query_result, db_outcome, adapt. rewrite Hc, He.
  rewrite decide_False by (intros Hex; inversion Hex). done.
Qed.

(** C7. [GET /dead_nodes/verticals] answers whenever the database does, and
    an answer holds no null, no empty string and no value twice; it holds
    exactly the non-empty vertical names of the table. *)
Theorem vertical_names_clean (w : World) :
  (healthy w → ∃ names, (get_vertical_names w).1 = Return names)
  ∧ (∀ names,
       (get_vertical_names w).1 = Return names →
       (None ∉ names) ∧ (Some "" ∉ names) ∧ NoDup names
       ∧ ∀ v, v ∈ names ↔
              truthy v ∧ ∃ r, r ∈ tbl_dead_nodes (database w)
                              ∧ dead_nodes.vertical_name r = v).
Proof.
  rewrite get_vertical_names_run. simpl fst. split.
  - intros Hw. rewrite vertical_names_healthy by done. eauto.
  - intros names Hrun.
    destruct (query_result w vertical_names_query) as [result|e] eqn:Hq; [|done].
    apply query_result_rows, db_outcome_rows in Hq. simpl in Hq.
    injection Hq as <-. injection Hrun as <-.
    assert (∀ v, v ∈ filter truthy
                   (remove_dups (dead_nodes.vertical_name <$> tbl_dead_nodes (database w)))
                 ↔ truthy v ∧ ∃ r, r ∈ tbl_dead_nodes (database w)
                                   ∧ dead_nodes.vertical_name r = v) as Hin.
    { intros v. rewrite list_elem_of_filter, elem_of_remove_dups, list_elem_of_fmap.
      split; [intros [Ht (r & -> & Hr)]|intros [Ht (r & Hr & <-)]]; eauto. }
    split_and!; [| | |done].
    + intros [[] _]%Hin.
    + intros [Ht _]%Hin. by apply Ht.
    + apply NoDup_filter, NoDup_remove_dups.
Qed.

(** * The routes as a whole *)

Create Rewrite HintDb handlers.
Hint Rewrite get_latest_dead_node_run get_vertical_names_run
  get_dead_nodes_by_vertical_run get_outlier_data_run
  get_frequency_analysis_run get_nan_analysis_run : handlers.

Ltac run_handler :=
  cbn [serve]; unfold fmap, M_fmap; autorewrite with handlers.

Lemma serve_world (c : call) (w : World) :
  data_returning c → (serve c w).2 = after_query w.
Proof.
  intros Hc. destruct c; [done|..]; run_handler;
    by destruct (query_result w _) as [[|??]|?].
Qed.

Lemma query_result_connect_fault {R} (w : World) (q : query R) msg :
  connect_fault w = Some msg →
  query_result w q =
    Raise (HTTPException 500 ("Database connection error: " +:+ msg)).
Proof. unfold query_result. by intros ->. Qed.

Lemma query_result_failure {R} (w : World) (q : query R) msg :
  connect_fault w = None → failure (db_outcome w q) = Some msg →
  query_result w q = Raise (HTTPException 500 ("Query execution error: " +:+ msg)).
Proof.
  unfold query_result. intros ->. destruct (db_outcome w q); naive_solver.
Qed.

Lemma query_result_inv {R} (w : World) (q : query R) :
  match query_result w q with
  | Return rows =>
      connect_fault w = None ∧ db_outcome w q = Rows rows
  | Raise e =>
      (∃ msg, connect_fault w = Some msg
              ∧ e = HTTPException 500 ("Database connection error: " +:+ msg))
      ∨ (∃ msg, connect_fault w = None ∧ failure (db_outcome w q) = Some msg
                ∧ e = HTTPException 500 ("Query execution error: " +:+ msg))
  end.
Proof.
  unfold query_result. destruct (connect_fault w) as [msg|]; [by eauto|].
  destruct (db_outcome w q); simpl; eauto.
Qed.

Lemma serve_connect_fault (c : call) (w : World) msg :
  data_returning c → connect_fault w = Some msg →
  (serve c w).1 = Raise (HTTPException 500 ("Database connection error: " +:+ msg)).
Proof.
  intros Hc Hf. destruct c; [done|..]; run_handler;
    by rewrite (query_result_connect_fault _ _ msg).
Qed.

Lemma serve_query_failure (c : call) (w : World) msg :
  connect_fault w = None → query_failure w c = Some msg →
  (serve c w).1 = Raise (HTTPException 500 ("Query execution error: " +:+ msg)).
Proof.
  intros Hf Hq. destruct c; [done|..]; run_handler;
    by rewrite (query_result_failure _ _ msg).
Qed.

(** Every exception a route raises is an [HTTPException], and a 500 among
    them comes from the connection or from the statement. *)
Lemma serve_raise_inv (c : call) (w : World) e :
  (serve c w).1 = Raise e →
  (∃ msg, connect_fault w = Some msg
          ∧ e = HTTPException 500 ("Database connection error: " +:+ msg))
  ∨ (∃ msg, connect_fault w = None ∧ query_failure w c = Some msg
            ∧ e = HTTPException 500 ("Query execution error: " +:+ msg))
  ∨ (∃ node_id, c = LatestDeadNode node_id
                ∧ e = HTTPException 404 ("No data found for node_id: " +:+ node_id)).
Proof.
  destruct c; [done|..]; run_handler; cbn [query_failure];
    match goal with |- context [query_result w ?q] =>
      pose proof (query_result_inv w q) as Hinv;
      destruct (query_result w q) as [[|??]|e'] end;
    simpl; intros [= <-];
    try (destruct Hinv as [(msg & ? & ->)|(msg & ? & ? & ->)];
         [left|right; left]; by eauto);
    right; right; by eauto.
Qed.

(** C4. A data-returning route whose connection cannot be opened, or whose
    statement the database fails, raises a 500 whose detail is the prefix of
    the failing step followed by the text of the database error; the outcome
    is that exception, not a sequence of rows, and the response carries the
    detail. *)
Theorem database_failure_is_server_error
    (c : call) (w : World) (msg : string) :
  data_returning c →
  (connect_fault w = Some msg →
     (serve c w).1 =
       Raise (HTTPException 500 ("Database connection error: " +:+ msg))
     ∧ (∀ b, (serve c w).1 ≠ Return b)
     ∧ ∀ int_of_str req,
         bind_request int_of_str req = Bound c →
         (app int_of_str req w).1 =
           {| status := 500;
              content := JsonDetail ("Database connection error: " +:+ msg) |})
  ∧ (connect_fault w = None → query_failure w c = Some msg →
       (serve c w).1 =
         Raise (HTTPException 500 ("Query execution error: " +:+ msg))
       ∧ (∀ b, (serve c w).1 ≠ Return b)
       ∧ ∀ int_of_str req,
           bind_request int_of_str req = Bound c →
           (app int_of_str req w).1 =
             {| status := 500;
                content := JsonDetail ("Query execution error: " +:+ msg) |}).
Proof.
  intros Hc. split.
  - intros Hf. pose proof (serve_connect_fault c w msg Hc Hf) as Hs.
    split_and!; [done|by rewrite Hs|].
    intros int_of_str req Hb. unfold app. rewrite Hb.
    destruct (serve c w) as [r w']. simpl in Hs. by subst r.
  - intros Hf Hq. pose proof (serve_query_failure c w msg Hf Hq) as Hs.
    split_and!; [done|by rewrite Hs|].
    intros int_of_str req Hb. unfold app. rewrite Hb.
    destruct (serve c w) as [r w']. simpl in Hs. by subst r.
Qed.

(** C8. A data-returning route makes one connection attempt.  When it
    succeeds, the route's whole traffic is: open a connection never handed out
    before, send one statement on it, close it; this is so whether the
    statement succeeds or fails, and the connection is closed afterwards.
    When the attempt fails nothing is opened.  In every case no connection is
    open after the route that was not open before it. *)
Theorem one_connection_per_request (c : call) (w : World) :
  data_returning c →
  (connect_fault w = None →
     trace (serve c w).2 =
       trace w ++ [Connected (next_conn w); Executed (next_conn w);
                   Closed (next_conn w)]
     ∧ next_conn (serve c w).2 = S (next_conn w)
     ∧ next_conn w ∉ open_conns (serve c w).2)
  ∧ (∀ msg, connect_fault w = Some msg →
       trace (serve c w).2 = trace w ++ [ConnectFailed]
       ∧ open_conns (serve c w).2 = open_conns w)
  ∧ open_conns (serve c w).2 ⊆ open_conns w
  ∧ (open_conns w = [] → open_conns (serve c w).2 = []).
Proof.
  intros Hc. rewrite serve_world by done. unfold after_query.
  destruct (connect_fault w) as [msg|]; simpl.
  - split_and!; done.
  - assert (filter (λ c', c' ≠ next_conn w) (open_conns w) ⊆ open_conns w) as Hsub.
    { intros x [_ ?]%list_elem_of_filter. done. }
    split_and!; [intros _; split_and!; [done..|]|done|done|].
    + intros [? _]%list_elem_of_filter. done.
    + by intros ->.
Qed.

Lemma bind_nan_analysis int_of_str (req : Request) :
  path req = "/nan_analysis" →
  bind_request int_of_str req =
    of_option (node ← required_str "node" (query_params req);
               hours ← optional_int int_of_str "hours" 24 (query_params req);
               limit ← optional_int int_of_str "limit" 1 (query_params req);
               Some (NanAnalysis node hours limit)).
Proof. unfold bind_request. intros ->. reflexivity. Qed.

Lemma bind_dead_nodes_by_vertical int_of_str (req : Request) :
  path req = "/dead_nodes/by_vertical" →
  bind_request int_of_str req =
    of_option (vertical_name ← required_str "vertical_name" (query_params req);
               hours ← optional_int int_of_str "hours" 3 (query_params req);
               Some (DeadNodesByVertical vertical_name hours)).
Proof. unfold bind_request. intros ->. reflexivity. Qed.

Lemma bind_outlier_data int_of_str (req : Request) :
  path req = "/outlier_data" →
  bind_request int_of_str req =
    of_option (node_id ← required_str "node_id" (query_params req);
               hours ← optional_int int_of_str "hours" 24 (query_params req);
               Some (OutlierData node_id hours)).
Proof. unfold bind_request. intros ->. reflexivity. Qed.

Lemma bind_frequency_analysis int_of_str (req : Request) :
  path req = "/frequency_analysis" →
  bind_request int_of_str req =
    of_option (node ← required_str "node" (query_params req);
               hours ← optional_int int_of_str "hours" 24 (query_params req);
               Some (FrequencyAnalysis node hours)).
Proof. unfold bind_request. intros ->. reflexivity. Qed.

Lemma bind_latest_dead_node int_of_str (req : Request) :
  path req = "/dead_nodes/latest" →
  bind_request int_of_str req =
    of_option (node_id ← required_str "node_id" (query_params req);
               Some (LatestDeadNode node_id)).
Proof. unfold bind_request. intros ->. reflexivity. Qed.

(** Whatever the handler returns or raises, the world after the response is
    the world after the handler. *)
Lemma app_bound_world int_of_str (req : Request) (w : World) (c : call) :
  bind_request int_of_str req = Bound c →
  (app int_of_str req w).2 = (serve c w).2.
Proof.
  intros Hb. unfold app. rewrite Hb.
  destruct (serve c w) as [[b|[?|??]] w']; [by case_decide|done..].
Qed.

(** C6. [GET /nan_analysis]: an answer never has more rows than [limit]; a
    request that leaves [limit] out is answered with at most one row; and
    when the connection opens and the statement is answered, with [limit]
    smaller than the number of rows in scope, the answer has exactly [limit]
    rows. *)
Theorem nan_analysis_respects_limit (node : string) (hours limit : Z) (w : World) :
  (∀ rows,
     (get_nan_analysis node hours limit w).1 = Return rows →
     Z.of_nat (length rows) ≤ limit)
  ∧ (∀ int_of_str req,
       path req = "/nan_analysis" → query_params req !! "limit" = None →
       status (app int_of_str req w).1 = 200 →
       ∃ rows, content (app int_of_str req w).1 = JsonNanAnalysis rows
               ∧ (length rows ≤ 1)%nat)
  ∧ (answered w (NanAnalysis node hours limit) →
     limit < Z.of_nat (length (filter
                 (λ r, nan_analysis.node r = Some node
                       ∧ in_window w hours (nan_analysis.timestamp_column r))
                 (tbl_nan_analysis (database w)))) →
     ∃ rows, (get_nan_analysis node hours limit w).1 = Return rows
             ∧ Z.of_nat (length rows) = limit).
Proof.
  split_and!.
  - intros rows. rewrite get_nan_analysis_run. simpl fst.
    intros Hrun%query_result_rows%db_outcome_rows.
    by eapply (run_select_length _ _ _ _ rows limit) in Hrun as [_ ?].
  - intros int_of_str req Hpath Hlimit. unfold app.
    rewrite bind_nan_analysis by done. unfold optional_int, required_str.
    rewrite Hlimit. destruct (query_params req !! "node") as [n|]; [|by simpl].
    destruct (match query_params req !! "hours" with
              | Some s => int_of_str s
              | None => Some 24
              end) as [h|]; [|by simpl].
    cbn [mbind option_bind of_option]. run_handler. simpl.
    destruct (query_result w _) as [rows|[?|??]] eqn:Hq; simpl; [|done|].
    + case_decide; [|done]. intros _. exists rows. split; [done|].
      apply query_result_rows, db_outcome_rows in Hq.
      eapply (run_select_length _ _ _ _ rows 1) in Hq as [_ ?]; [lia|done].
    + intros ->. pose proof (query_result_inv w (nan_analysis_query n h 1)) as Hinv.
      rewrite Hq in Hinv. exfalso.
      destruct Hinv as [(? & _ & [=])|(? & ? & _ & [=])].
  - intros [Hc Hq] Hlt. rewrite get_nan_analysis_run. simpl fst.
    destruct (windowed_answer nan_analysis_tbl nan_analysis.node
                nan_analysis.timestamp_column None (Some limit) w node hours Hc Hq)
      as [Hrun Hrange].
    eexists. split; [exact Hrun|]. cbv zeta.
    rewrite length_take, ordered_in_scope. unfold in_scope. simpl in *. lia.
Qed.

Lemma prefix_append (p s : string) : String.prefix p (p +:+ s) = true.
Proof.
  induction p as [|a p IH]; [by destruct s|].
  change (String a p +:+ s) with (String a (p +:+ s)). cbn [String.prefix].
  by destruct (ascii_dec a a).
Qed.

(** C10. Every exception a route raises is an [HTTPException], with status
    404 or 500.  The detail of a 500 starts with one of two prefixes and not
    with the other: "Database connection error: " when the connection could
    not be opened, "Query execution error: " when the connection was opened
    and the statement failed; what follows the prefix is the text of the
    database error.  A 500 response that carries a detail carries this
    one. *)
Theorem server_error_names_failing_step (c : call) (w : World) :
  (∀ e, (serve c w).1 = Raise e →
        ∃ status_code detail,
          e = HTTPException status_code detail
          ∧ (status_code = 404 ∨ status_code = 500))
  ∧ (∀ detail,
       (serve c w).1 = Raise (HTTPException 500 detail) →
       ∃ msg,
         (connect_fault w = Some msg
          ∧ detail = "Database connection error: " +:+ msg
          ∧ String.prefix "Database connection error: " detail = true
          ∧ String.prefix "Query execution error: " detail = false)
         ∨ (connect_fault w = None
            ∧ query_failure w c = Some msg
            ∧ detail = "Query execution error: " +:+ msg
            ∧ String.prefix "Query execution error: " detail = true
            ∧ String.prefix "Database connection error: " detail = false))
  ∧ (∀ int_of_str req detail,
       bind_request int_of_str req = Bound c →
       status (app int_of_str req w).1 = 500 →
       content (app int_of_str req w).1 = JsonDetail detail →
       (serve c w).1 = Raise (HTTPException 500 detail)).
Proof.
  split_and!.
  - intros e He.
    destruct (serve_raise_inv c w e He)
      as [(msg & _ & ->)|[(msg & _ & _ & ->)|(n & _ & ->)]]; eauto 10.
  - intros detail He.
    destruct (serve_raise_inv c w _ He)
      as [(msg & Hf & Heq)|[(msg & Hf & Hq & Heq)|(n & _ & [=])]];
      injection Heq as ->; exists msg.
    + left. split_and!; [done|done|apply prefix_append|reflexivity].
    + right. split_and!; [done|done|done|apply prefix_append|reflexivity].
  - intros int_of_str req detail Hb. unfold app. rewrite Hb.
    destruct (serve c w) as [[b|[msg|sc d]] w']; simpl.
    + by case_decide.
    + done.
    + by intros -> [= ->].
Qed.

Lemma bind_missing int_of_str (req : Request) name :
  required_param (path req) = Some name → query_params req !! name = None →
  bind_request int_of_str req = Invalid.
Proof.
  unfold required_param, bind_request, required_str.
  repeat case_decide; try done; intros [= <-] Hm;
    repeat match goal with H : path req = _ |- _ => rewrite H in *; clear H end;
    try done; by rewrite Hm.
Qed.

Lemma optional_int_valid int_of_str (req : Request) (name : string) (default : Z) :
  (∀ v, query_params req !! name = Some v → is_Some (int_of_str v)) →
  is_Some (optional_int int_of_str name default (query_params req)).
Proof.
  intros Hvalid. unfold optional_int.
  destruct (query_params req !! name) as [v|]; [by apply Hvalid|by eexists].
Qed.

(** C3, amended. A request to a data-returning route whose required string
    parameter is missing is answered 422, and nothing is asked of the
    database: the world is left as it was.  A value that is present is bound
    as it is, the empty string too: on every data-returning route with a
    required string, when the integer parameters that are present are
    integers, the handler is called with that string and runs its query. *)
Theorem missing_required_parameter_is_rejected
    (int_of_str : string → option Z) (req : Request) (w : World) :
  (∀ name,
     required_param (path req) = Some name → query_params req !! name = None →
     app int_of_str req w = ({| status := 422; content := JsonValidationErrors |}, w))
  ∧ (∀ name s,
       required_param (path req) = Some name →
       query_params req !! name = Some s →
       (∀ p v, p ∈ integer_params (path req) → query_params req !! p = Some v →
               is_Some (int_of_str v)) →
       ∃ c, bind_request int_of_str req = Bound c
            ∧ data_returning c
            ∧ string_argument c = Some s
            ∧ (app int_of_str req w).2 = after_query w).
Proof.
  split.
  - intros name Hreq Hmiss. unfold app. by rewrite (bind_missing _ _ name).
  - intros name s Hreq Hs Hints.
    assert (∃ c, bind_request int_of_str req = Bound c
                 ∧ data_returning c ∧ string_argument c = Some s)
      as (c & Hb & Hc & Harg).
    { revert Hreq. unfold required_param.
      repeat case_decide; try done; intros [= <-];
        match goal with
        | Hp : path req = _ |- _ =>
            rewrite Hp in Hints; vm_compute (integer_params _) in Hints
        end.
      - rewrite bind_latest_dead_node by done. unfold required_str. rewrite Hs.
        by eexists.
      - rewrite bind_dead_nodes_by_vertical by done. unfold required_str.
        rewrite Hs.
        destruct (optional_int_valid int_of_str req "hours" 3) as [h ->];
          [intros v; apply Hints; left|]. by eexists.
      - rewrite bind_outlier_data by done. unfold required_str. rewrite Hs.
        destruct (optional_int_valid int_of_str req "hours" 24) as [h ->];
          [intros v; apply Hints; left|]. by eexists.
      - rewrite bind_frequency_analysis by done. unfold required_str. rewrite Hs.
        destruct (optional_int_valid int_of_str req "hours" 24) as [h ->];
          [intros v; apply Hints; left|]. by eexists.
      - rewrite bind_nan_analysis by done. unfold required_str. rewrite Hs.
        destruct (optional_int_valid int_of_str req "hours" 24) as [h ->];
          [intros v; apply Hints; left|].
        destruct (optional_int_valid int_of_str req "limit" 1) as [l ->];
          [intros v; apply Hints; right; left|]. by eexists. }
    exists c. split_and!; [done..|].
    by rewrite (app_bound_world _ _ _ c), serve_world.
Qed.

(** C3 as written fails: [/dead_nodes/by_vertical?vertical_name=] is answered
    200 after one query was sent. *)
Lemma empty_string_is_queried :
  let req := request "/dead_nodes/by_vertical" [("vertical_name", "")] in
  required_param (path req) = Some "vertical_name"
  ∧ query_params req !! "vertical_name" = Some ""
  ∧ (app decimal req example_world).1 = {| status := 200; content := JsonDeadNodes [] |}
  ∧ trace (app decimal req example_world).2
    = [Connected 0%nat; Executed 0%nat; Closed 0%nat]
  ∧ ¬ rejects_missing_or_empty decimal.
Proof.
  assert (let req := request "/dead_nodes/by_vertical" [("vertical_name", "")] in
          required_param (path req) = Some "vertical_name"
          ∧ query_params req !! "vertical_name" = Some ""
          ∧ (app decimal req example_world).1
            = {| status := 200; content := JsonDeadNodes [] |}
          ∧ trace (app decimal req example_world).2
            = [Connected 0%nat; Executed 0%nat; Closed 0%nat]) as H.
  { vm_compute. by split_and!. }
  destruct H as (Hreq & Hempty & Hresp & Htrace). split_and!; [done..|].
  intros Hclaim.
  destruct (Hclaim _ _ example_world Hreq (or_intror Hempty)) as [[Hlo _] _].
  rewrite Hresp in Hlo. simpl in Hlo. lia.
Qed.

(** ** The scenarios of the specification, run *)

Example latest_n1 :
  let req := request "/dead_nodes/latest" [("node_id", "n1")] in
  (app decimal req example_world).1
  = {| status := 200; content := JsonRecord dead2 |}
  ∧ trace (app decimal req example_world).2
    = [Connected 0%nat; Executed 0%nat; Closed 0%nat].
Proof. split; vm_compute; reflexivity. Qed.

Example latest_missing :
  (app decimal (request "/dead_nodes/latest" [("node_id", "missing")]) example_world).1
  = {| status := 404; content := JsonDetail "No data found for node_id: missing" |}.
Proof. vm_compute. reflexivity. Qed.

Example nan_limit_5 :
  (app decimal (request "/nan_analysis" [("node", "x"); ("hours", "24"); ("limit", "5")])
     example_world).1
  = {| status := 200; content := JsonNanAnalysis (nan_x <$> [1; 2; 3; 4; 5]) |}.
Proof. vm_compute. reflexivity. Qed.

Example nan_negative_limit :
  (app decimal (request "/nan_analysis" [("node", "x"); ("limit", "-1")]) example_world).1
  = {| status := 500;
       content := JsonDetail ("Query execution error: "
                              +:+ error_text example_server NegativeLimit) |}.
Proof. vm_compute. reflexivity. Qed.

Example latest_nul :
  (app decimal (request "/dead_nodes/latest" [("node_id", String "000" "")])
     example_world).1
  = {| status := 500;
       content := JsonDetail ("Query execution error: "
                              +:+ error_text example_server NulCharacter) |}.
Proof. vm_compute. reflexivity. Qed.

Example outlier_not_a_number :
  let req := request "/outlier_data" [("node_id", "n1")] in
  (app decimal req not_a_number_world).1
  = {| status := 500; content := PlainText "Internal Server Error" |}
  ∧ trace (app decimal req not_a_number_world).2
    = [Connected 0%nat; Executed 0%nat; Closed 0%nat].
Proof. split; vm_compute; reflexivity. Qed.

Example nan_hours_out_of_range :
  (app decimal
     (request "/nan_analysis" [("node", "x"); ("hours", "99999999"); ("limit", "0")])
     example_world).1
  = {| status := 500;
       content := JsonDetail ("Query execution error: "
                              +:+ error_text example_server HoursOutOfRange) |}.
Proof. vm_compute. reflexivity. Qed.

(** * The theorems at the scenarios of the specification *)

Lemma example_world_healthy : healthy example_world.
Proof. split; reflexivity. Defined.

Lemma example_world_surrogate_key : surrogate_key example_world.
Proof.
  unfold surrogate_key. simpl.
  apply NoDup_cons. split; [|apply NoDup_singleton].
  intros Hin. apply list_elem_of_singleton in Hin. discriminate Hin.
Defined.

Lemma get_latest_dead_node_max_witness :
  answered example_world (LatestDeadNode "n1")
  ∧ reported example_world "n1" dead1
  ∧ ∃ r, (get_latest_dead_node "n1" example_world).1 = Return r
         ∧ reported example_world "n1" r
         ∧ (∀ r', reported example_world "n1" r' → dead_nodes.id r' ≤ dead_nodes.id r)
         ∧ (surrogate_key example_world →
            ∀ r', reported example_world "n1" r' → r' ≠ r →
                  dead_nodes.id r' < dead_nodes.id r).
Proof.
  assert (answered example_world (LatestDeadNode "n1")) as Hans
    by (split; vm_compute; reflexivity).
  assert (reported example_world "n1" dead1) as Hrep.
  { split; [left|reflexivity]. }
  split; [exact Hans|]. split; [exact Hrep|].
  exact (proj2 (get_latest_dead_node_max "n1" example_world Hans) dead1 Hrep).
Defined.

Lemma windowed_routes_respect_window_witness :
  let r := outlier_data.Row (Some "n1") (Some (now0 - 24 * hour)) [] in
  answered example_world (OutlierData "n1" 24)
  ∧ r ∈ tbl_outlier_data (database example_world)
  ∧ outlier_data.timestamp_column r = Some (NOW example_world - 24 * hour)
  ∧ ∃ rows, (get_outlier_data "n1" 24 example_world).1 = Return rows ∧ r ∈ rows.
Proof.
  intros r.
  assert (answered example_world (OutlierData "n1" 24)) as Hans
    by (split; vm_compute; reflexivity).
  split; [exact Hans|]. split; [left|]. split; [reflexivity|].
  destruct (windowed_routes_respect_window example_world 24)
    as (_ & _ & _ & _ & Hboundary & Houtlier & _).
  apply Houtlier; [exact Hans|left|reflexivity|exact Hboundary].
Defined.

Lemma database_failure_is_server_error_witness :
  data_returning (LatestDeadNode "n1")
  ∧ connect_fault unreachable_world = Some "connection refused"
  ∧ (serve (LatestDeadNode "n1") unreachable_world).1 =
      Raise (HTTPException 500 ("Database connection error: " +:+ "connection refused")).
Proof.
  assert (data_returning (LatestDeadNode "n1")) as Hc by (intros Heq; discriminate Heq).
  split; [exact Hc|]. split; [reflexivity|].
  exact (proj1 (proj1 (database_failure_is_server_error
                         (LatestDeadNode "n1") unreachable_world
                         "connection refused" Hc) eq_refl)).
Defined.

Lemma dead_nodes_by_vertical_capped_sorted_witness :
  (get_dead_nodes_by_vertical "search" 3 example_world).1 = Return [dead2; dead1]
  ∧ surrogate_key example_world
  ∧ (length [dead2; dead1] ≤ 100)%nat
  ∧ StronglySorted (λ a b, dead_nodes.id b < dead_nodes.id a) [dead2; dead1].
Proof.
  assert ((get_dead_nodes_by_vertical "search" 3 example_world).1
          = Return [dead2; dead1]) as Hrun by (vm_compute; reflexivity).
  destruct (proj2 (dead_nodes_by_vertical_capped_sorted "search" 3 example_world)
              [dead2; dead1] Hrun) as (Hlen & _ & Hstrict).
  split; [exact Hrun|]. split; [exact example_world_surrogate_key|].
  split; [exact Hlen|exact (Hstrict example_world_surrogate_key)].
Defined.

Lemma nan_analysis_respects_limit_witness :
  answered example_world (NanAnalysis "x" 24 5)
  ∧ ∃ rows, (get_nan_analysis "x" 24 5 example_world).1 = Return rows
            ∧ Z.of_nat (length rows) = 5.
Proof.
  assert (answered example_world (NanAnalysis "x" 24 5)) as Hans
    by (split; vm_compute; reflexivity).
  split; [exact Hans|].
  destruct (nan_analysis_respects_limit "x" 24 5 example_world) as (_ & _ & Hexact).
  apply Hexact; [exact Hans|vm_compute; reflexivity].
Defined.

Lemma vertical_names_clean_witness :
  (get_vertical_names example_world).1 = Return [Some "search"]
  ∧ (None ∉ [Some "search"]) ∧ (Some "" ∉ [Some "search"])
  ∧ NoDup [Some "search"].
Proof.
  assert ((get_vertical_names example_world).1 = Return [Some "search"]) as Hrun
    by (vm_compute; reflexivity).
  destruct (proj2 (vertical_names_clean example_world) [Some "search"] Hrun)
    as (Hnull & Hempty & Hnodup & _).
  split; [exact Hrun|]. split; [exact Hnull|]. split; [exact Hempty|exact Hnodup].
Defined.

Lemma one_connection_per_request_witness :
  data_returning VerticalNames
  ∧ connect_fault example_world = None
  ∧ trace (serve VerticalNames example_world).2 =
      trace example_world ++ [Connected 0%nat; Executed 0%nat; Closed 0%nat]
  ∧ open_conns (serve VerticalNames example_world).2 = [].
Proof.
  assert (data_returning VerticalNames) as Hc by (intros Heq; discriminate Heq).
  destruct (one_connection_per_request VerticalNames example_world Hc)
    as (Hopen & _ & _ & Hnone).
  split; [exact Hc|]. split; [reflexivity|].
  split; [exact (proj1 (Hopen eq_refl))|exact (Hnone eq_refl)].
Defined.

Lemma nan_analysis_limit_zero_witness :
  answered example_world (NanAnalysis "x" 24 0)
  ∧ (get_nan_analysis "x" 24 0 example_world).1 = Return [].
Proof.
  assert (answered example_world (NanAnalysis "x" 24 0)) as Hans
    by (split; vm_compute; reflexivity).
  split; [exact Hans|].
  exact (nan_analysis_limit_zero "x" 24 example_world Hans).
Defined.

Lemma server_error_names_failing_step_witness :
  (serve (OutlierData "n1" 24) unreachable_world).1 =
    Raise (HTTPException 500 "Database connection error: connection refused")
  ∧ ∃ msg,
      (connect_fault unreachable_world = Some msg
       ∧ "Database connection error: connection refused"
         = "Database connection error: " +:+ msg
       ∧ String.prefix "Database connection error: "
           "Database connection error: connection refused" = true
       ∧ String.prefix "Query execution error: "
           "Database connection error: connection refused" = false)
      ∨ (connect_fault unreachable_world = None
         ∧ query_failure unreachable_world (OutlierData "n1" 24) = Some msg
         ∧ "Database connection error: connection refused"
           = "Query execution error: " +:+ msg
         ∧ String.prefix "Query execution error: "
             "Database connection error: connection refused" = true
         ∧ String.prefix "Database connection error: "
             "Database connection error: connection refused" = false).
Proof.
  assert ((serve (OutlierData "n1" 24) unreachable_world).1 =
          Raise (HTTPException 500 "Database connection error: connection refused"))
    as Hrun by (vm_compute; reflexivity).
  split; [exact Hrun|].
  destruct (server_error_names_failing_step (OutlierData "n1" 24) unreachable_world)
    as (_ & Hdetail & _).
  exact (Hdetail _ Hrun).
Defined.

Lemma missing_required_parameter_is_rejected_witness :
  let req := request "/dead_nodes/latest" [] in
  required_param (path req) = Some "node_id"
  ∧ query_params req !! "node_id" = None
  ∧ app decimal req example_world =
      ({| status := 422; content := JsonValidationErrors |}, example_world).
Proof.
  intros req.
  assert (required_param (path req) = Some "node_id") as Hreq by reflexivity.
  assert (query_params req !! "node_id" = None) as Hmiss by reflexivity.
  split; [exact Hreq|]. split; [exact Hmiss|].
  exact (proj1 (missing_required_parameter_is_rejected decimal req example_world)
           "node_id" Hreq Hmiss).
Defined.

(** * Further properties of the routes *)

(** X1. [GET /] answers with the welcome message whatever the query string says
    and whatever the state of the database: the world is left as it was, no
    connection is attempted. *)
Theorem root_never_touches_database
    (int_of_str : string → option Z) (req : Request) (w : World) :
  path req = "/" →
  app int_of_str req w =
    ({| status := 200;
        content := JsonMessage "Welcome to Maintenance Backend API" |}, w).
Proof. intros Hpath. unfold app, bind_request. rewrite Hpath. reflexivity. Qed.

Lemma root_never_touches_database_witness :
  let req := request "/" [("node_id", "n1")] in
  path req = "/"
  ∧ app decimal req unreachable_world =
      ({| status := 200;
          content := JsonMessage "Welcome to Maintenance Backend API" |},
       unreachable_world).
Proof.
  intros req. split; [reflexivity|].
  exact (root_never_touches_database decimal req unreachable_world eq_refl).
Defined.

(** X2. [GET /outlier_data] and [GET /frequency_analysis] have no row cap:
    when the connection opens and the statement is answered, the answer is
    the rows of the table with the requested key inside the window, each as
    often as the table holds it. *)
Theorem uncapped_routes_return_scope (w : World) (hours : Z) :
  (∀ node_id,
     answered w (OutlierData node_id hours) →
     ∃ rows, (get_outlier_data node_id hours w).1 = Return rows
             ∧ rows ≡ₚ filter
                 (λ r, outlier_data.node_id r = Some node_id
                       ∧ in_window w hours (outlier_data.timestamp_column r))
                 (tbl_outlier_data (database w)))
  ∧ (∀ node,
       answered w (FrequencyAnalysis node hours) →
       ∃ rows, (get_frequency_analysis node hours w).1 = Return rows
               ∧ rows ≡ₚ filter
                   (λ r, frequency_analysis.node r = Some node
                         ∧ in_window w hours (frequency_analysis.timestamp r))
                   (tbl_frequency_analysis (database w))).
Proof.
  split.
  - intros node_id [Hc Hq]. rewrite get_outlier_data_run. simpl fst.
    eexists. split.
    + by apply (windowed_answer public_outlier_data outlier_data.node_id
                  outlier_data.timestamp_column None None).
    + apply (ordered_in_scope public_outlier_data).
  - intros node [Hc Hq]. rewrite get_frequency_analysis_run. simpl fst.
    eexists. split.
    + by apply (windowed_answer frequency_analysis_tbl frequency_analysis.node
                  frequency_analysis.timestamp None None).
    + apply (ordered_in_scope frequency_analysis_tbl).
Qed.

Lemma uncapped_routes_return_scope_witness :
  answered example_world (OutlierData "n1" 24)
  ∧ ∃ rows, (get_outlier_data "n1" 24 example_world).1 = Return rows
            ∧ rows ≡ₚ filter
                (λ r, outlier_data.node_id r = Some "n1"
                      ∧ in_window example_world 24 (outlier_data.timestamp_column r))
                (tbl_outlier_data (database example_world)).
Proof.
  assert (answered example_world (OutlierData "n1" 24)) as Hans
    by (split; vm_compute; reflexivity).
  split; [exact Hans|].
  exact (proj1 (uncapped_routes_return_scope example_world 24) "n1" Hans).
Defined.

(** X3. [GET /dead_nodes/by_vertical] under its cap: when the connection
    opens and the statement is answered, the answer has as many rows as are
    in scope, up to 100; no row of the table is answered more often than the
    table holds it; and the rows left out by the cap are the ones with the
    smallest ids: a row in scope that is not in the answer has an id at most
    that of every answered row. *)
Theorem dead_nodes_by_vertical_keeps_greatest_ids
    (vertical_name : string) (hours : Z) (w : World) :
  answered w (DeadNodesByVertical vertical_name hours) →
  let scope := filter
                 (λ r, dead_nodes.vertical_name r = Some vertical_name
                       ∧ in_window w hours (dead_nodes.timestamp r))
                 (tbl_dead_nodes (database w)) in
  ∃ rows, (get_dead_nodes_by_vertical vertical_name hours w).1 = Return rows
          ∧ length rows = (100 `min` length scope)%nat
          ∧ rows ⊆+ scope
          ∧ ∀ r r', r ∈ rows → r' ∈ scope → r' ∉ rows →
                    dead_nodes.id r' ≤ dead_nodes.id r.
Proof.
  intros [Hc Hq] scope. rewrite get_dead_nodes_by_vertical_run. simpl fst.
  eexists. split.
  { by apply (windowed_answer public_dead_nodes dead_nodes.vertical_name
                dead_nodes.timestamp (Some dead_nodes.id) (Some 100)). }
  cbv zeta.
  pose proof (ordered_in_scope public_dead_nodes dead_nodes.vertical_name
                dead_nodes.timestamp (Some dead_nodes.id) (Some 100)
                w vertical_name hours) as Hperm.
  pose proof (ordered_sorted (database w) (NOW w)
                (Select public_dead_nodes
                   [TextEq dead_nodes.vertical_name vertical_name;
                    Since dead_nodes.timestamp hours]
                   (Some dead_nodes.id) (Some 100)) dead_nodes.id eq_refl) as Hs.
  change (filter _ (rows_of (database w) public_dead_nodes)) with scope in Hperm.
  set (l := ordered _ _ _) in *.
  change (Z.to_nat 100) with 100%nat. split_and!.
  - by rewrite length_take, Hperm.
  - rewrite <- Hperm. apply submseteq_take.
  - intros r r' Hr Hr' Hout. rewrite <- Hperm in Hr'.
    rewrite <- (take_drop 100 l) in Hr', Hs.
    apply elem_of_app in Hr' as [Hr'|Hr']; [done|].
    by apply (StronglySorted_app_1_elem_of _ _ _ r r') in Hs.
Qed.

Lemma dead_nodes_by_vertical_keeps_greatest_ids_witness :
  answered example_world (DeadNodesByVertical "search" 3)
  ∧ let scope := filter
                   (λ r, dead_nodes.vertical_name r = Some "search"
                         ∧ in_window example_world 3 (dead_nodes.timestamp r))
                   (tbl_dead_nodes (database example_world)) in
    ∃ rows, (get_dead_nodes_by_vertical "search" 3 example_world).1 = Return rows
            ∧ length rows = (100 `min` length scope)%nat
            ∧ rows ⊆+ scope
            ∧ ∀ r r', r ∈ rows → r' ∈ scope → r' ∉ rows →
                      dead_nodes.id r' ≤ dead_nodes.id r.
Proof.
  assert (answered example_world (DeadNodesByVertical "search" 3)) as Hans
    by (split; vm_compute; reflexivity).
  split; [exact Hans|].
  exact (dead_nodes_by_vertical_keeps_greatest_ids "search" 3 example_world Hans).
Defined.

(** X4. [GET /nan_analysis]: when the connection opens and the statement is
    answered, the answer has [limit] rows, or all the rows in scope when they
    are fewer, and no row more often than the table holds it. *)
Theorem nan_analysis_row_count (node : string) (hours limit : Z) (w : World) :
  answered w (NanAnalysis node hours limit) →
  let scope := filter
                 (λ r, nan_analysis.node r = Some node
                       ∧ in_window w hours (nan_analysis.timestamp_column r))
                 (tbl_nan_analysis (database w)) in
  ∃ rows, (get_nan_analysis node hours limit w).1 = Return rows
          ∧ Z.of_nat (length rows) = limit `min` Z.of_nat (length scope)
          ∧ rows ⊆+ scope.
Proof.
  intros [Hc Hq] scope. rewrite get_nan_analysis_run. simpl fst.
  destruct (windowed_answer nan_analysis_tbl nan_analysis.node
              nan_analysis.timestamp_column None (Some limit) w node hours Hc Hq)
    as [Hrun Hrange].
  eexists. split; [exact Hrun|]. cbv zeta.
  pose proof (ordered_in_scope nan_analysis_tbl nan_analysis.node
                nan_analysis.timestamp_column None (Some limit)
                w node hours) as Hperm.
  change (filter _ (rows_of (database w) nan_analysis_tbl)) with scope in Hperm.
  set (l := ordered _ _ _) in *. split.
  - rewrite length_take, Hperm. lia.
  - rewrite <- Hperm. apply submseteq_take.
Qed.

Lemma nan_analysis_row_count_witness :
  answered example_world (NanAnalysis "x" 24 20)
  ∧ let scope := filter
                   (λ r, nan_analysis.node r = Some "x"
                         ∧ in_window example_world 24 (nan_analysis.timestamp_column r))
                   (tbl_nan_analysis (database example_world)) in
    ∃ rows, (get_nan_analysis "x" 24 20 example_world).1 = Return rows
            ∧ Z.of_nat (length rows) = 20 `min` Z.of_nat (length scope)
            ∧ rows ⊆+ scope.
Proof.
  assert (answered example_world (NanAnalysis "x" 24 20)) as Hans
    by (split; vm_compute; reflexivity).
  split; [exact Hans|].
  exact (nan_analysis_row_count "x" 24 20 example_world Hans).
Defined.

(** X5. [limit] is bound into the statement unchecked.  With a negative
    [limit] the route never returns rows: [cursor.execute] is still called on
    the opened connection, and the request ends as the 500 of a failed
    statement, not as a client error. *)
Theorem nan_analysis_negative_limit (node : string) (hours limit : Z) (w : World) :
  limit < 0 →
  (∀ rows, (get_nan_analysis node hours limit w).1 ≠ Return rows)
  ∧ (connect_fault w = None →
     Executed (next_conn w) ∈ trace (get_nan_analysis node hours limit w).2
     ∧ ∃ msg,
         query_failure w (NanAnalysis node hours limit) = Some msg
         ∧ (get_nan_analysis node hours limit w).1 =
             Raise (HTTPException 500 ("Query execution error: " +:+ msg))).
Proof.
  intros Hneg. rewrite get_nan_analysis_run. simpl fst. simpl snd.
  assert (∀ rows, db_outcome w (nan_analysis_query node hours limit) ≠ Rows rows)
    as Hnorows.
  { intros rows Hrun%db_outcome_rows.
    apply (run_select_length _ _ _ _ rows limit) in Hrun as [? _]; [lia|done]. }
  split.
  - intros rows Hrun%query_result_rows. by apply Hnorows in Hrun.
  - intros Hc. split.
    + unfold after_query. rewrite Hc. simpl.
      rewrite elem_of_app. right. right. left.
    + unfold query_result, query_failure. rewrite Hc.
      destruct (db_outcome w (nan_analysis_query node hours limit)) as [rows|msg]
        eqn:Ho; [by destruct (Hnorows rows)|]. by exists msg.
Qed.

Lemma nan_analysis_negative_limit_witness :
  -1 < 0
  ∧ connect_fault example_world = None
  ∧ ∃ msg,
      query_failure example_world (NanAnalysis "x" 24 (-1)) = Some msg
      ∧ (get_nan_analysis "x" 24 (-1) example_world).1 =
          Raise (HTTPException 500 ("Query execution error: " +:+ msg)).
Proof.
  assert (-1 < 0) as Hneg by reflexivity. split; [exact Hneg|].
  split; [reflexivity|].
  destruct (nan_analysis_negative_limit "x" 24 (-1) example_world Hneg)
    as (_ & Hraise).
  exact (proj2 (Hraise eq_refl)).
Defined.

(** X6. An integer parameter that is present but is not an integer is refused
    with 422 before the handler runs: the world is left as it was, whatever
    the other parameters are. *)
Theorem ill_typed_integer_is_rejected
    (int_of_str : string → option Z) (req : Request) (w : World)
    (name s : string) :
  name ∈ integer_params (path req) →
  query_params req !! name = Some s → int_of_str s = None →
  app int_of_str req w = ({| status := 422; content := JsonValidationErrors |}, w).
Proof.
  unfold integer_params. intros Hname Hs Hparse. unfold app.
  repeat case_decide; [..|by apply elem_of_nil in Hname].
  - apply list_elem_of_singleton in Hname as ->.
    rewrite bind_dead_nodes_by_vertical by done.
    unfold optional_int. rewrite Hs, Hparse. by destruct (required_str _ _).
  - apply list_elem_of_singleton in Hname as ->.
    rewrite bind_outlier_data by done.
    unfold optional_int. rewrite Hs, Hparse. by destruct (required_str _ _).
  - apply list_elem_of_singleton in Hname as ->.
    rewrite bind_frequency_analysis by done.
    unfold optional_int. rewrite Hs, Hparse. by destruct (required_str _ _).
  - rewrite bind_nan_analysis by done.
    apply elem_of_cons in Hname as [->|Hname%list_elem_of_singleton].
    + unfold optional_int, required_str. rewrite Hs, Hparse.
      by destruct (query_params req !! "node").
    + subst name. unfold optional_int, required_str. rewrite Hs, Hparse.
      destruct (query_params req !! "node"); [|done].
      by destruct (query_params req !! "hours") as [h|];
        [destruct (int_of_str h)|].
Qed.

Lemma ill_typed_integer_is_rejected_witness :
  let req := request "/nan_analysis" [("node", "x"); ("limit", "five")] in
  "limit" ∈ integer_params (path req)
  ∧ query_params req !! "limit" = Some "five"
  ∧ decimal "five" = None
  ∧ app decimal req example_world =
      ({| status := 422; content := JsonValidationErrors |}, example_world).
Proof.
  intros req.
  assert ("limit" ∈ integer_params (path req)) as Hname by (right; left).
  assert (query_params req !! "limit" = Some "five") as Hs by reflexivity.
  assert (decimal "five" = None) as Hparse by reflexivity.
  split; [exact Hname|]. split; [exact Hs|]. split; [exact Hparse|].
  exact (ill_typed_integer_is_rejected decimal req example_world "limit" "five"
           Hname Hs Hparse).
Defined.

(** X7. A request that leaves [hours] out is served with the default of its
    route: a 200 answer of [/dead_nodes/by_vertical] holds only rows of the
    last 3 hours, one of [/outlier_data], [/frequency_analysis] or
    [/nan_analysis] only rows of the last 24 hours. *)
Theorem omitted_hours_is_the_default_window
    (int_of_str : string → option Z) (req : Request) (w : World) :
  query_params req !! "hours" = None →
  status (app int_of_str req w).1 = 200 →
  (path req = "/dead_nodes/by_vertical" →
     ∃ rows, content (app int_of_str req w).1 = JsonDeadNodes rows
             ∧ Forall (λ r, in_window w 3 (dead_nodes.timestamp r)) rows)
  ∧ (path req = "/outlier_data" →
       ∃ rows, content (app int_of_str req w).1 = JsonOutlierData rows
               ∧ Forall (λ r, in_window w 24 (outlier_data.timestamp_column r)) rows)
  ∧ (path req = "/frequency_analysis" →
       ∃ rows, content (app int_of_str req w).1 = JsonFrequencyAnalysis rows
               ∧ Forall (λ r, in_window w 24 (frequency_analysis.timestamp r)) rows)
  ∧ (path req = "/nan_analysis" →
       ∃ rows, content (app int_of_str req w).1 = JsonNanAnalysis rows
               ∧ Forall (λ r, in_window w 24 (nan_analysis.timestamp_column r)) rows).
Proof.
  intros Hhours Hstatus. split_and!; intros Hpath; revert Hstatus; unfold app.
  - rewrite bind_dead_nodes_by_vertical by done.
    unfold optional_int, required_str. rewrite Hhours.
    destruct (query_params req !! "vertical_name") as [v|]; [|by simpl].
    cbn [mbind option_bind of_option]. run_handler. simpl.
    destruct (query_result w _) as [rows|[?|??]] eqn:Hq; simpl; [|done|].
    + case_decide; [|done]. intros _. exists rows. split; [done|].
      apply windowed_sound in Hq.
      eapply Forall_impl; [exact Hq|]. by intros r (_ & _ & ?).
    + intros ->. pose proof (query_result_inv w (dead_nodes_by_vertical_query v 3)) as Hi.
      rewrite Hq in Hi. exfalso. destruct Hi as [(? & _ & [=])|(? & ? & _ & [=])].
  - rewrite bind_outlier_data by done.
    unfold optional_int, required_str. rewrite Hhours.
    destruct (query_params req !! "node_id") as [v|]; [|by simpl].
    cbn [mbind option_bind of_option]. run_handler. simpl.
    destruct (query_result w _) as [rows|[?|??]] eqn:Hq; simpl; [|done|].
    + case_decide; [|done]. intros _. exists rows. split; [done|].
      apply windowed_sound in Hq.
      eapply Forall_impl; [exact Hq|]. by intros r (_ & _ & ?).
    + intros ->. pose proof (query_result_inv w (outlier_data_query v 24)) as Hi.
      rewrite Hq in Hi. exfalso. destruct Hi as [(? & _ & [=])|(? & ? & _ & [=])].
  - rewrite bind_frequency_analysis by done.
    unfold optional_int, required_str. rewrite Hhours.
    destruct (query_params req !! "node") as [v|]; [|by simpl].
    cbn [mbind option_bind of_option]. run_handler. simpl.
    destruct (query_result w _) as [rows|[?|??]] eqn:Hq; simpl; [|done|].
    + case_decide; [|done]. intros _. exists rows. split; [done|].
      apply windowed_sound in Hq.
      eapply Forall_impl; [exact Hq|]. by intros r (_ & _ & ?).
    + intros ->. pose proof (query_result_inv w (frequency_analysis_query v 24)) as Hi.
      rewrite Hq in Hi. exfalso. destruct Hi as [(? & _ & [=])|(? & ? & _ & [=])].
  - rewrite bind_nan_analysis by done.
    unfold optional_int, required_str. rewrite Hhours.
    destruct (query_params req !! "node") as [v|]; [|by simpl].
    destruct (match query_params req !! "limit" with
              | Some s => int_of_str s
              | None => Some 1
              end) as [n|]; [|by simpl].
    cbn [mbind option_bind of_option]. run_handler. simpl.
    destruct (query_result w _) as [rows|[?|??]] eqn:Hq; simpl; [|done|].
    + case_decide; [|done]. intros _. exists rows. split; [done|].
      apply windowed_sound in Hq.
      eapply Forall_impl; [exact Hq|]. by intros r (_ & _ & ?).
    + intros ->. pose proof (query_result_inv w (nan_analysis_query v 24 n)) as Hi.
      rewrite Hq in Hi. exfalso. destruct Hi as [(? & _ & [=])|(? & ? & _ & [=])].
Qed.

Lemma omitted_hours_is_the_default_window_witness :
  let req := request "/dead_nodes/by_vertical" [("vertical_name", "search")] in
  query_params req !! "hours" = None
  ∧ status (app decimal req example_world).1 = 200
  ∧ path req = "/dead_nodes/by_vertical"
  ∧ ∃ rows, content (app decimal req example_world).1 = JsonDeadNodes rows
            ∧ Forall (λ r, in_window example_world 3 (dead_nodes.timestamp r)) rows.
Proof.
  intros req.
  assert (query_params req !! "hours" = None) as Hhours by reflexivity.
  assert (status (app decimal req example_world).1 = 200) as Hstatus
    by (vm_compute; reflexivity).
  split; [exact Hhours|]. split; [exact Hstatus|]. split; [reflexivity|].
  exact (proj1 (omitted_hours_is_the_default_window decimal req example_world
                  Hhours Hstatus) eq_refl).
Defined.

Lemma filter_none {A} (P : A → Prop) `{∀ x, Decision (P x)} (l : list A) :
  (∀ x, x ∈ l → ¬ P x) → filter P l = [].
Proof.
  induction l as [|a l IH]; [done|]. intros Hl.
  rewrite filter_cons_False by (apply Hl; left). apply IH.
  intros x Hx. apply Hl. by right.
Qed.

(** X8. An empty selection is a success on the list routes: when the
    connection opens and the statement is answered, and no row is in scope,
    the routes that return sequences return the empty sequence (it is
    [/dead_nodes/latest] alone that raises 404); [/dead_nodes/verticals]
    returns it when no row has a non-empty vertical name. *)
Theorem empty_scope_is_empty_answer (w : World) (hours : Z) :
  (∀ vertical_name,
     answered w (DeadNodesByVertical vertical_name hours) →
     (∀ r, r ∈ tbl_dead_nodes (database w) →
           ¬ (dead_nodes.vertical_name r = Some vertical_name
              ∧ in_window w hours (dead_nodes.timestamp r))) →
     (get_dead_nodes_by_vertical vertical_name hours w).1 = Return [])
  ∧ (∀ node_id,
       answered w (OutlierData node_id hours) →
       (∀ r, r ∈ tbl_outlier_data (database w) →
             ¬ (outlier_data.node_id r = Some node_id
                ∧ in_window w hours (outlier_data.timestamp_column r))) →
       (get_outlier_data node_id hours w).1 = Return [])
  ∧ (∀ node,
       answered w (FrequencyAnalysis node hours) →
       (∀ r, r ∈ tbl_frequency_analysis (database w) →
             ¬ (frequency_analysis.node r = Some node
                ∧ in_window w hours (frequency_analysis.timestamp r))) →
       (get_frequency_analysis node hours w).1 = Return [])
  ∧ (∀ node limit,
       answered w (NanAnalysis node hours limit) →
       (∀ r, r ∈ tbl_nan_analysis (database w) →
             ¬ (nan_analysis.node r = Some node
                ∧ in_window w hours (nan_analysis.timestamp_column r))) →
       (get_nan_analysis node hours limit w).1 = Return [])
  ∧ (answered w VerticalNames →
     (∀ r, r ∈ tbl_dead_nodes (database w) →
           ¬ truthy (dead_nodes.vertical_name r)) →
     (get_vertical_names w).1 = Return []).
Proof.
  split_and!.
  - intros v [Hc Hq] Hnone. rewrite get_dead_nodes_by_vertical_run. simpl fst.
    destruct (windowed_answer public_dead_nodes dead_nodes.vertical_name
                dead_nodes.timestamp (Some dead_nodes.id) (Some 100)
                w v hours Hc Hq) as [Hrun _].
    etransitivity; [exact Hrun|]. cbv zeta. pose proof (ordered_in_scope public_dead_nodes
      dead_nodes.vertical_name dead_nodes.timestamp (Some dead_nodes.id)
      (Some 100) w v hours) as Hperm.
    rewrite (filter_none _ _ Hnone) in Hperm. apply Permutation_nil_r in Hperm.
    by rewrite Hperm.
  - intros n [Hc Hq] Hnone. rewrite get_outlier_data_run. simpl fst.
    destruct (windowed_answer public_outlier_data outlier_data.node_id
                outlier_data.timestamp_column None None w n hours Hc Hq)
      as [Hrun _].
    etransitivity; [exact Hrun|]. cbv zeta. pose proof (ordered_in_scope public_outlier_data
      outlier_data.node_id outlier_data.timestamp_column None None w n hours)
      as Hperm.
    rewrite (filter_none _ _ Hnone) in Hperm. apply Permutation_nil_r in Hperm.
    by rewrite Hperm.
  - intros n [Hc Hq] Hnone. rewrite get_frequency_analysis_run. simpl fst.
    destruct (windowed_answer frequency_analysis_tbl frequency_analysis.node
                frequency_analysis.timestamp None None w n hours Hc Hq)
      as [Hrun _].
    etransitivity; [exact Hrun|]. cbv zeta. pose proof (ordered_in_scope frequency_analysis_tbl
      frequency_analysis.node frequency_analysis.timestamp None None w n hours)
      as Hperm.
    rewrite (filter_none _ _ Hnone) in Hperm. apply Permutation_nil_r in Hperm.
    by rewrite Hperm.
  - intros n limit [Hc Hq] Hnone. rewrite get_nan_analysis_run. simpl fst.
    destruct (windowed_answer nan_analysis_tbl nan_analysis.node
                nan_analysis.timestamp_column None (Some limit)
                w n hours Hc Hq) as [Hrun _].
    etransitivity; [exact Hrun|]. cbv zeta. pose proof (ordered_in_scope nan_analysis_tbl
      nan_analysis.node nan_analysis.timestamp_column None (Some limit) w n hours)
      as Hperm.
    rewrite (filter_none _ _ Hnone) in Hperm. apply Permutation_nil_r in Hperm.
    rewrite Hperm. by rewrite take_nil.
  - intros [Hc Hq] Hnone. rewrite get_vertical_names_run. simpl fst.
    destruct (query_result_answered w vertical_names_query Hc Hq)
      as (rows & Hrun & ->).
    simpl in Hrun. injection Hrun as <-. f_equal.
    apply filter_none. intros v Hv%elem_of_remove_dups%list_elem_of_fmap.
    destruct Hv as (r & -> & Hr). by apply Hnone.
Qed.

Lemma empty_scope_is_empty_answer_witness :
  answered example_world (OutlierData "n9" 24)
  ∧ (∀ r, r ∈ tbl_outlier_data (database example_world) →
          ¬ (outlier_data.node_id r = Some "n9"
             ∧ in_window example_world 24 (outlier_data.timestamp_column r)))
  ∧ (get_outlier_data "n9" 24 example_world).1 = Return [].
Proof.
  assert (answered example_world (OutlierData "n9" 24)) as Hans
    by (split; vm_compute; reflexivity).
  assert (∀ r, r ∈ tbl_outlier_data (database example_world) →
               ¬ (outlier_data.node_id r = Some "n9"
                  ∧ in_window example_world 24 (outlier_data.timestamp_column r)))
    as Hnone.
  { intros r Hr [Hkey _]. apply list_elem_of_singleton in Hr. subst r.
    discriminate Hkey. }
  split; [exact Hans|]. split; [exact Hnone|].
  destruct (empty_scope_is_empty_answer example_world 24) as (_ & Houtlier & _).
  exact (Houtlier "n9" Hans Hnone).
Defined.

(** X9. Connections are not reused.  Two data-returning calls one after the
    other, the database being reachable, leave the trace of two complete
    sessions on two different connections: the first is closed before the
    second is opened, and none is open at the end that was not before. *)
Theorem consecutive_requests_use_distinct_connections (c1 c2 : call) (w : World) :
  data_returning c1 → data_returning c2 → connect_fault w = None →
  trace (serve c2 (serve c1 w).2).2 =
    trace w ++ [Connected (next_conn w); Executed (next_conn w);
                Closed (next_conn w);
                Connected (S (next_conn w)); Executed (S (next_conn w));
                Closed (S (next_conn w))]
  ∧ open_conns (serve c2 (serve c1 w).2).2 ⊆ open_conns w.
Proof.
  intros H1 H2 Hc. rewrite !serve_world by done. unfold after_query.
  rewrite Hc. simpl. split.
  - by rewrite <- app_assoc.
  - intros x [_ [_ Hx]%list_elem_of_filter]%list_elem_of_filter. done.
Qed.

Lemma consecutive_requests_use_distinct_connections_witness :
  data_returning VerticalNames ∧ data_returning (LatestDeadNode "n1")
  ∧ connect_fault example_world = None
  ∧ trace (serve (LatestDeadNode "n1") (serve VerticalNames example_world).2).2 =
      trace example_world ++
        [Connected 0%nat; Executed 0%nat; Closed 0%nat;
         Connected 1%nat; Executed 1%nat; Closed 1%nat].
Proof.
  assert (data_returning VerticalNames) as H1 by (intros Heq; discriminate Heq).
  assert (data_returning (LatestDeadNode "n1")) as H2
    by (intros Heq; discriminate Heq).
  split; [exact H1|]. split; [exact H2|]. split; [reflexivity|].
  exact (proj1 (consecutive_requests_use_distinct_connections
                  VerticalNames (LatestDeadNode "n1") example_world H1 H2 eq_refl)).
Defined.

(** X10. A 404 is raised by [/dead_nodes/latest] alone, and only after the
    connection was opened and the database answered the statement with no
    row: it never stands for a database failure.  Its detail names the
    [node_id] asked for. *)
Theorem not_found_only_from_latest (c : call) (w : World) (detail : string) :
  (serve c w).1 = Raise (HTTPException 404 detail) →
  ∃ node_id,
    c = LatestDeadNode node_id
    ∧ detail = "No data found for node_id: " +:+ node_id
    ∧ connect_fault w = None
    ∧ db_outcome w (latest_dead_node_query node_id) = Rows [].
Proof.
  destruct c; [done|..]; run_handler;
    match goal with |- context [query_result w ?q] =>
      pose proof (query_result_inv w q) as Hinv;
      destruct (query_result w q) as [[|??]|e'] end;
    simpl; intros Heq; simplify_eq;
    try (destruct Hinv as [(? & _ & [=])|(? & _ & _ & [=])]; fail).
  destruct Hinv as [Hc Hq]. eexists. by split_and!.
Qed.

Lemma not_found_only_from_latest_witness :
  (serve (LatestDeadNode "missing") example_world).1 =
    Raise (HTTPException 404 "No data found for node_id: missing")
  ∧ ∃ node_id,
      LatestDeadNode "missing" = LatestDeadNode node_id
      ∧ "No data found for node_id: missing" = "No data found for node_id: " +:+ node_id
      ∧ connect_fault example_world = None
      ∧ db_outcome example_world (latest_dead_node_query node_id) = Rows [].
Proof.
  assert ((serve (LatestDeadNode "missing") example_world).1 =
          Raise (HTTPException 404 "No data found for node_id: missing")) as Hrun
    by (vm_compute; reflexivity).
  split; [exact Hrun|].
  exact (not_found_only_from_latest (LatestDeadNode "missing") example_world
           "No data found for node_id: missing" Hrun).
Defined.

Lemma in_window_wider (w : World) (h h' : Z) (t : option Z) :
  h ≤ h' → in_window w h t → in_window w h' t.
Proof. destruct t as [t|]; [|done]. unfold in_window, hour. lia. Qed.

(** X11. On the routes without a row cap a wider window never loses a row: when
    the database answers, every row answered for [hours = h] is answered for
    every [h' >= h] (negative values included). *)
Theorem wider_window_keeps_rows (w : World) (h h' : Z) :
  healthy w → h ≤ h' →
  (∀ node_id rows rows',
     (get_outlier_data node_id h w).1 = Return rows →
     (get_outlier_data node_id h' w).1 = Return rows' →
     rows ⊆ rows')
  ∧ (∀ node rows rows',
       (get_frequency_analysis node h w).1 = Return rows →
       (get_frequency_analysis node h' w).1 = Return rows' →
       rows ⊆ rows').
Proof.
  intros Hw Hle. split.
  - intros n rows rows'. rewrite !get_outlier_data_run. simpl fst.
    intros Hrows%windowed_sound Hrows' r Hr.
    rewrite Forall_forall in Hrows. destruct (Hrows r Hr) as (Hin & Hkey & Hwin).
    apply (windowed_complete public_outlier_data outlier_data.node_id
             outlier_data.timestamp_column None None w n h' rows' r);
      [done..|].
    split; [done|]. by eapply in_window_wider.
  - intros n rows rows'. rewrite !get_frequency_analysis_run. simpl fst.
    intros Hrows%windowed_sound Hrows' r Hr.
    rewrite Forall_forall in Hrows. destruct (Hrows r Hr) as (Hin & Hkey & Hwin).
    apply (windowed_complete frequency_analysis_tbl frequency_analysis.node
             frequency_analysis.timestamp None None w n h' rows' r);
      [done..|].
    split; [done|]. by eapply in_window_wider.
Qed.

Lemma wider_window_keeps_rows_witness :
  healthy example_world ∧ 24 ≤ 48
  ∧ (get_outlier_data "n1" 24 example_world).1 =
      Return (tbl_outlier_data example_db)
  ∧ (get_outlier_data "n1" 48 example_world).1 =
      Return (tbl_outlier_data example_db)
  ∧ tbl_outlier_data example_db ⊆ tbl_outlier_data example_db.
Proof.
  assert (24 ≤ 48) as Hle by discriminate.
  assert ((get_outlier_data "n1" 24 example_world).1 =
          Return (tbl_outlier_data example_db)) as H24 by (vm_compute; reflexivity).
  assert ((get_outlier_data "n1" 48 example_world).1 =
          Return (tbl_outlier_data example_db)) as H48 by (vm_compute; reflexivity).
  split; [exact example_world_healthy|]. split; [exact Hle|].
  split; [exact H24|]. split; [exact H48|].
  exact (proj1 (wider_window_keeps_rows example_world 24 48
                  example_world_healthy Hle) "n1" _ _ H24 H48).
Defined.

(** X12. [execute_query] passes the answer of the database through: it returns
    rows exactly when the connection opened and the server answered the
    statement, and the rows are the server's, unchanged; this holds for every
    statement. *)
Theorem execute_query_passes_rows_through
    {R : Type} (q : query R) (w : World) (rows : list R) :
  (execute_query q w).1 = Return rows
  ↔ connect_fault w = None ∧ db_outcome w q = Rows rows.
Proof.
  rewrite execute_query_run. simpl fst. split.
  - intros Hrun. pose proof (query_result_inv w q) as Hinv.
    by rewrite Hrun in Hinv.
  - intros [Hc Hq]. unfold query_result. by rewrite Hc, Hq.
Qed.

Lemma execute_query_passes_rows_through_witness :
  (execute_query vertical_names_query example_world).1 = Return [Some "search"]
  ∧ connect_fault example_world = None
  ∧ db_outcome example_world vertical_names_query = Rows [Some "search"].
Proof.
  assert ((execute_query vertical_names_query example_world).1
          = Return [Some "search"]) as Hrun by (vm_compute; reflexivity).
  split; [exact Hrun|].
  exact (proj1 (execute_query_passes_rows_through vertical_names_query
                  example_world [Some "search"]) Hrun).
Defined.

(** X13. The key filter of the windowed routes is an exact match: every answered
    row is a row of the route's table whose key column equals the requested
    string; a row whose key is NULL or another string is never answered. *)
Theorem windowed_routes_match_key (w : World) (hours : Z) :
  (∀ vertical_name rows,
     (get_dead_nodes_by_vertical vertical_name hours w).1 = Return rows →
     Forall (λ r, r ∈ tbl_dead_nodes (database w)
                  ∧ dead_nodes.vertical_name r = Some vertical_name) rows)
  ∧ (∀ node_id rows,
       (get_outlier_data node_id hours w).1 = Return rows →
       Forall (λ r, r ∈ tbl_outlier_data (database w)
                    ∧ outlier_data.node_id r = Some node_id) rows)
  ∧ (∀ node rows,
       (get_frequency_analysis node hours w).1 = Return rows →
       Forall (λ r, r ∈ tbl_frequency_analysis (database w)
                    ∧ frequency_analysis.node r = Some node) rows)
  ∧ (∀ node limit rows,
       (get_nan_analysis node hours limit w).1 = Return rows →
       Forall (λ r, r ∈ tbl_nan_analysis (database w)
                    ∧ nan_analysis.node r = Some node) rows).
Proof.
  split_and!.
  - intros v rows. rewrite get_dead_nodes_by_vertical_run. simpl.
    intros Hrun%windowed_sound. eapply Forall_impl; [done|]. by intros r (? & ? & _).
  - intros n rows. rewrite get_outlier_data_run. simpl.
    intros Hrun%windowed_sound. eapply Forall_impl; [done|]. by intros r (? & ? & _).
  - intros n rows. rewrite get_frequency_analysis_run. simpl.
    intros Hrun%windowed_sound. eapply Forall_impl; [done|]. by intros r (? & ? & _).
  - intros n limit rows. rewrite get_nan_analysis_run. simpl.
    intros Hrun%windowed_sound. eapply Forall_impl; [done|]. by intros r (? & ? & _).
Qed.

Lemma windowed_routes_match_key_witness :
  (get_dead_nodes_by_vertical "search" 3 example_world).1 = Return [dead2; dead1]
  ∧ Forall (λ r, r ∈ tbl_dead_nodes (database example_world)
                 ∧ dead_nodes.vertical_name r = Some "search") [dead2; dead1].
Proof.
  assert ((get_dead_nodes_by_vertical "search" 3 example_world).1
          = Return [dead2; dead1]) as Hrun by (vm_compute; reflexivity).
  split; [exact Hrun|].
  exact (proj1 (windowed_routes_match_key example_world 3) "search" _ Hrun).
Defined.
